(** * rf2-replay-reader: a shallow embedding of the VCR replay decoder

    The development follows the three source modules:
    - [utils.py]  : the primitive readers over a binary stream,
    - [events.py] : the event classes and their [__post_init__] decoders,
    - [replay.py] : the dispatch table, the header and driver-list decoders
                    and the [events] generator.

    Python integers are unbounded, hence [Z]; a [bytes] value is a list of
    [Byte.byte]; a Python [float] is an IEEE-754 binary64 value, modelled by
    the [spec_float] of the standard library in canonical binary64 form; a
    [str] is the list of its code points.  A binary stream ([BytesIO], or the
    buffered file returned by [open]/[gzip.open]) is a buffer with a read
    position.  Code that may raise runs in a state-and-exception monad over
    the stream. *)

From Stdlib Require Import ZArith List Strings.Byte Bool Lia SpecFloat.
From stdpp Require Import base option list gmap.
Import ListNotations.

Local Open Scope Z_scope.

(* ===================================================================== *)
(** ** Python values *)
(* ===================================================================== *)

Abbreviation bytes := (list byte).

(** A [str] as the sequence of its Unicode code points. *)
Abbreviation str := (list N).

(** A Python [float] (binary64). *)
Abbreviation float := spec_float.

Definition prec64 : Z := 53.
Definition emax64 : Z := 1024.

(** The exceptions the modelled code can raise. *)
Inductive exception :=
| struct_error               (* struct.error: unpack requires a buffer of 4 bytes *)
| UnicodeDecodeError         (* bytes.decode("utf-8") on invalid input *)
| OverflowError              (* float(int) on an int too large for a float *)
| ValueError (n : Z).        (* ValueError(f"Unknown session type: {n}") *)

Inductive result (A : Type) :=
| Ok (a : A)
| Raise (e : exception).
Arguments Ok {A} a.
Arguments Raise {A} e.

Definition raises {A} (r : result A) : Prop := exists e, r = Raise e.

(** [b[0] + 256*b[1] + ...]: [int.from_bytes(data, byteorder="little")]. *)
Definition byte_val (b : byte) : Z := Z.of_N (Byte.to_N b).

Fixpoint from_bytes_unsigned (data : bytes) : Z :=
  match data with
  | [] => 0
  | b :: rest => byte_val b + 256 * from_bytes_unsigned rest
  end.

(** [int.from_bytes(data, byteorder="little", signed=signed)]. *)
Definition int_from_bytes (data : bytes) (signed : bool) : Z :=
  let u := from_bytes_unsigned data in
  let w := 8 * Z.of_nat (length data) in
  if signed && Z.testbit u (w - 1) then u - 2 ^ w else u.

(** [float(value)] for an int: the nearest binary64, ties to even;
    [OverflowError] when the int is too large. *)
Definition float_of_int (value : Z) : result float :=
  match binary_normalize prec64 emax64 value 0 false with
  | S754_infinity _ => Raise OverflowError
  | x => Ok x
  end.

(** [struct.unpack('<f', data)[0]] on the little-endian word [w] of a 4-byte
    buffer: the binary32 value with that bit pattern, widened (exactly) to
    binary64. *)
Definition float32_of_bits (w : Z) : float :=
  let sign := Z.testbit w 31 in
  let e := Z.land (Z.shiftr w 23) 255 in
  let m := Z.land w 8388607 in
  let signed (x : Z) := if sign then - x else x in
  if e =? 255 then
    if m =? 0 then S754_infinity sign else S754_nan
  else if e =? 0 then
    binary_normalize prec64 emax64 (signed m) (-149) sign
  else
    binary_normalize prec64 emax64 (signed (8388608 + m)) (e - 150) sign.

Definition struct_unpack_f (data : bytes) : result float :=
  if (length data =? 4)%nat then Ok (float32_of_bits (from_bytes_unsigned data))
  else Raise struct_error.

(** [data.find(b'\x00')]-style search: index of the first occurrence of a
    byte, [-1] when absent. *)
Fixpoint bytes_find (data : bytes) (x : byte) : Z :=
  match data with
  | [] => -1
  | b :: rest =>
      if Byte.eqb b x then 0
      else let i := bytes_find rest x in
           if i =? -1 then -1 else 1 + i
  end.

(** [data[:stop]] for [0 <= stop]. *)
Definition slice_to (data : bytes) (stop : Z) : bytes := take (Z.to_nat stop) data.

(** *** Strict UTF-8 decoding, [bytes.decode("utf-8")] *)

Definition is_cont (b : byte) : bool :=
  let n := Byte.to_N b in (128 <=? n)%N && (n <=? 191)%N.

Definition cont_bits (b : byte) : N := (Byte.to_N b - 128)%N.

Definition in_range (lo hi : N) (b : byte) : bool :=
  let n := Byte.to_N b in (lo <=? n)%N && (n <=? hi)%N.

Fixpoint decode_utf8 (data : bytes) : result str :=
  let cons_ok (c : N) (r : result str) : result str :=
    match r with Ok s => Ok (c :: s) | Raise e => Raise e end in
  match data with
  | [] => Ok []
  | b0 :: rest =>
      let n0 := Byte.to_N b0 in
      if (n0 <? 128)%N then cons_ok n0 (decode_utf8 rest)
      else if in_range 194 223 b0 then
        match rest with
        | b1 :: rest1 =>
            if is_cont b1
            then cons_ok ((n0 - 192) * 64 + cont_bits b1)%N (decode_utf8 rest1)
            else Raise UnicodeDecodeError
        | _ => Raise UnicodeDecodeError
        end
      else if in_range 224 239 b0 then
        match rest with
        | b1 :: b2 :: rest2 =>
            let lo := if (n0 =? 224)%N then 160%N else 128%N in
            let hi := if (n0 =? 237)%N then 159%N else 191%N in
            if in_range lo hi b1 && is_cont b2
            then cons_ok ((n0 - 224) * 4096 + cont_bits b1 * 64 + cont_bits b2)%N
                         (decode_utf8 rest2)
            else Raise UnicodeDecodeError
        | _ => Raise UnicodeDecodeError
        end
      else if in_range 240 244 b0 then
        match rest with
        | b1 :: b2 :: b3 :: rest3 =>
            let lo := if (n0 =? 240)%N then 144%N else 128%N in
            let hi := if (n0 =? 244)%N then 143%N else 191%N in
            if in_range lo hi b1 && is_cont b2 && is_cont b3
            then cons_ok ((n0 - 240) * 262144 + cont_bits b1 * 4096
                          + cont_bits b2 * 64 + cont_bits b3)%N
                         (decode_utf8 rest3)
            else Raise UnicodeDecodeError
        | _ => Raise UnicodeDecodeError
        end
      else Raise UnicodeDecodeError
  end.

(* ===================================================================== *)
(** ** Binary streams *)
(* ===================================================================== *)

(** A [BytesIO] or buffered binary file: the whole content and the read
    position.  The position may lie beyond the end (after a [seek]). *)
Record BytesIO := mkBytesIO { buf : bytes; pos : nat }.

(** [BytesIO(data)] *)
Definition BytesIO_new (data : bytes) : BytesIO := mkBytesIO data 0.

Definition remaining (f : BytesIO) : bytes := drop (pos f) (buf f).

(** State-and-exception monad over the stream being read.  The stream is a
    mutable object: what was consumed before an exception stays consumed. *)
Definition M (A : Type) : Type := BytesIO -> result A * BytesIO.

Definition ret {A} (a : A) : M A := fun f => (Ok a, f).
Definition raise {A} (e : exception) : M A := fun f => (Raise e, f).
Definition bind {A B} (m : M A) (k : A -> M B) : M B :=
  fun f => match m f with
           | (Ok a, f') => k a f'
           | (Raise e, f') => (Raise e, f')
           end.
Definition lift {A} (r : result A) : M A := fun f => (r, f).

Notation "'do' x <- m ; k" := (bind m (fun x => k))
  (at level 10, x name, m at level 100, k at level 200).
Notation "'do' ' p <- m ; k" := (bind m (fun x => let 'p := x in k))
  (at level 10, p pattern, m at level 100, k at level 200).
Notation "m ;; k" := (bind m (fun _ => k))
  (at level 100, k at level 200, right associativity).

(** [file.read(size)]: at most [size] bytes from the current position, fewer
    when the stream ends first; a negative [size] reads to the end.  It never
    raises. *)
Definition read (size : Z) : M bytes := fun f =>
  let rest := remaining f in
  let out := if size <? 0 then rest else take (Z.to_nat size) rest in
  (Ok out, mkBytesIO (buf f) (pos f + length out)).

(** [file.read()] *)
Definition read_to_end : M bytes := read (-1).

(** [file.seek(offset)] for [0 <= offset]. *)
Definition seek (offset : Z) : M unit := fun f =>
  (Ok tt, mkBytesIO (buf f) (Z.to_nat offset)).

(* ===================================================================== *)
(** ** utils.py *)
(* ===================================================================== *)

Definition read_integer (size : Z) (signed : bool) : M Z :=
  do data <- read size;
  ret (int_from_bytes data signed).

Definition read_float (size : Z) (signed : bool) : M float :=
  do data <- read size;
  let value := int_from_bytes data signed in
  lift (float_of_int value).

Definition read_float2 (size : Z) : M float :=
  do data <- read size;
  lift (struct_unpack_f data).

Definition nul_truncate (raw_bytes : bytes) : bytes :=
  let null_terminator_index := bytes_find raw_bytes x00 in
  if negb (null_terminator_index =? -1)
  then slice_to raw_bytes null_terminator_index
  else raw_bytes.

Definition read_string (descriptor_length : Z) : M str :=
  do d <- read descriptor_length;
  let size := int_from_bytes d false in
  do raw_bytes <- read size;
  lift (decode_utf8 (nul_truncate raw_bytes)).

Definition read_bytes (size : Z) : M bytes := read size.

Definition read_bytes_as_string (size : Z) : M str :=
  do raw_bytes <- read size;
  lift (decode_utf8 (nul_truncate raw_bytes)).

(* ===================================================================== *)
(** ** events.py *)
(* ===================================================================== *)

(** The fields of the base dataclass [ReplayEvent].  [driver] is [None] or an
    int; [data] is the [BytesIO] over the event content, a mutable stream
    whose position the decoders advance. *)
Record ReplayEvent := mkReplayEvent {
  event_class : Z;
  event_type : Z;
  time : float;
  driver : option Z;
  size : Z;
  data : BytesIO
}.

Definition set_data (self : ReplayEvent) (d : BytesIO) : ReplayEvent :=
  mkReplayEvent (event_class self) (event_type self) (time self)
                (driver self) (size self) d.

(** The fields [TelemetryEvent] adds to the base class. *)
Record Telemetry := mkTelemetry {
  gear : Z;
  steer_yaw : Z;
  throttle : Z;
  engine_rpm : Z;
  in_pit : bool;
  horn : bool;
  acceleration : Z;
  following : bool;
  warning_light : bool;
  driver_visible : bool;
  head_light : bool;
  current_driver : Z;
  dpart_debris11 : bool;
  dpart_debris10 : bool;
  dpart_debris9 : bool;
  dpart_debris8 : bool;
  dpart_debris7 : bool;
  dpart_debris6 : bool;
  dpart_debris5 : bool;
  dpart_debris4 : bool;
  dpart_debris3 : bool;
  dpart_debris2 : bool;
  dpart_debris1 : bool;
  dpart_debris0 : bool;
  dpart_rwing : bool;
  dpart_fwing : bool;
  dpart_rr : bool;
  dpart_rl : bool;
  dpart_fr : bool;
  dpart_fl : bool;
  tc_level : Z;
  brakes : Z;
  pos_x : float;
  pos_y : float;
  pos_z : float;
  rot_x : float;
  rot_y : float;
  rot_z : float
}.

(** The event classes: each carries the base fields and its own. *)
Inductive Event :=
| UnknownEvent (self : ReplayEvent)
| LightEvent (self : ReplayEvent) (light_state : Z)
| GarageEvent (self : ReplayEvent) (timestamp : float)
| CheckpointEvent (self : ReplayEvent)
    (lap_or_sector_time timestamp : float) (lap sector : Z)
| PitLaneEvent (self : ReplayEvent) (action : Z)
| OvertakeEvent (self : ReplayEvent) (standings : bytes)
| TelemetryEvent (self : ReplayEvent) (fields : Telemetry).

Definition base (ev : Event) : ReplayEvent :=
  match ev with
  | UnknownEvent s | LightEvent s _ | GarageEvent s _
  | CheckpointEvent s _ _ _ _ | PitLaneEvent s _ | OvertakeEvent s _
  | TelemetryEvent s _ => s
  end.

(** [x != 0] on ints. *)
Definition nonzero (x : Z) : bool := negb (x =? 0).

Infix ">>" := Z.shiftr (at level 30, no associativity).
Infix "&" := Z.land (at level 40, left associativity).

(** The [__post_init__] bodies, as computations over [self.data]. *)

Definition LightEvent_post_init : M Z :=
  read_integer 1 false.

Definition GarageEvent_post_init : M float :=
  read_float 4 false.

Definition CheckpointEvent_post_init : M (float * float * Z * Z) :=
  do lap_or_sector_time <- read_float 4 false;
  do timestamp <- read_float 4 false;
  do lap <- read_integer 1 false;
  do sector_idx <- read_integer 1 false;
  ret (lap_or_sector_time, timestamp, lap, (sector_idx >> 6) & 3).

Definition PitLaneEvent_post_init : M Z :=
  read_integer 1 false.

Definition OvertakeEvent_post_init (self : ReplayEvent) : M bytes :=
  read 21 ;;
  read_bytes (size self - 21).

Definition TelemetryEvent_post_init (self : ReplayEvent) : M Telemetry :=
  let gear := event_type self - 8 in
  (* Read info1 telemetry *)
  do info1 <- read_integer 4 false;
  let steer_yaw := info1 & 127 in
  let throttle := info1 >> 11 & 63 in
  let engine_rpm := info1 >> 18 in
  let in_pit := nonzero (info1 >> 17 & 1) in
  let horn := nonzero (info1 >> 10 & 1) in
  (* Read info2 *)
  do info2 <- read_integer 4 false;
  let acceleration := (info2 >> 24) & 255 in
  let following := nonzero (info2 >> 23 & 1) in
  let warning_light := nonzero (info2 >> 22 & 1) in
  let driver_visible := nonzero (info2 >> 21 & 1) in
  let head_light := nonzero (info2 >> 20 & 1) in
  let current_driver := (info2 >> 18) & 3 in
  (* Detachable parts from info2 *)
  let dpart_debris11 := nonzero ((info2 >> 7) & 1) in
  let dpart_debris10 := nonzero ((info2 >> 6) & 1) in
  let dpart_debris9 := nonzero ((info2 >> 5) & 1) in
  let dpart_debris8 := nonzero ((info2 >> 4) & 1) in
  let dpart_debris7 := nonzero ((info2 >> 3) & 1) in
  let dpart_debris6 := nonzero ((info2 >> 2) & 1) in
  let dpart_debris5 := nonzero ((info2 >> 1) & 1) in
  let dpart_debris4 := nonzero ((info2 >> 0) & 1) in
  let dpart_debris3 := nonzero ((info2 >> 31) & 1) in
  let dpart_debris2 := nonzero ((info2 >> 30) & 1) in
  let dpart_debris1 := nonzero ((info2 >> 29) & 1) in
  let dpart_debris0 := nonzero ((info2 >> 28) & 1) in
  let dpart_rwing := nonzero ((info2 >> 27) & 1) in
  let dpart_fwing := nonzero ((info2 >> 26) & 1) in
  let dpart_rr := nonzero ((info2 >> 25) & 1) in
  let dpart_rl := nonzero ((info2 >> 24) & 1) in
  let dpart_fr := nonzero ((info2 >> 23) & 1) in
  let dpart_fl := nonzero ((info2 >> 22) & 1) in
  (* Speed info *)
  do speed_info <- read_integer 5 false;
  read 25 ;;  (* Unknown *)
  (* TC and brakes *)
  do tc_brakes <- read_integer 1 false;
  let tc_level := tc_brakes >> 6 in
  let brakes := tc_brakes & 63 in
  (* Position (x, y, z) *)
  do pos_x <- read_float2 4;
  do pos_y <- read_float2 4;
  do pos_z <- read_float2 4;
  (* Rotation (x, y, z) *)
  do rot_x <- read_float2 4;
  do rot_y <- read_float2 4;
  do rot_z <- read_float2 4;
  ret (mkTelemetry gear steer_yaw throttle engine_rpm in_pit horn
         acceleration following warning_light driver_visible head_light
         current_driver
         dpart_debris11 dpart_debris10 dpart_debris9 dpart_debris8
         dpart_debris7 dpart_debris6 dpart_debris5 dpart_debris4
         dpart_debris3 dpart_debris2 dpart_debris1 dpart_debris0
         dpart_rwing dpart_fwing dpart_rr dpart_rl dpart_fr dpart_fl
         tc_level brakes pos_x pos_y pos_z rot_x rot_y rot_z).

(** The boolean fields of [TelemetryEvent] named [dpart_*], in declaration
    order: the detachable-part and debris flags of the record. *)
Definition dpart_flags (t : Telemetry) : list bool :=
  [ dpart_debris11 t; dpart_debris10 t; dpart_debris9 t; dpart_debris8 t;
    dpart_debris7 t; dpart_debris6 t; dpart_debris5 t; dpart_debris4 t;
    dpart_debris3 t; dpart_debris2 t; dpart_debris1 t; dpart_debris0 t;
    dpart_rwing t; dpart_fwing t; dpart_rr t; dpart_rl t; dpart_fr t;
    dpart_fl t ].

(** The names of the classes, as the values of the dispatch table. *)
Inductive EventClass :=
| cls_UnknownEvent | cls_LightEvent | cls_GarageEvent | cls_CheckpointEvent
| cls_PitLaneEvent | cls_OvertakeEvent | cls_TelemetryEvent.

(** Running [m] on [self.data], the stream object the event holds. *)
Definition on_data {A} (self : ReplayEvent) (m : M A)
    (k : ReplayEvent -> A -> Event) : result Event :=
  match m (data self) with
  | (Ok a, d) => Ok (k (set_data self d) a)
  | (Raise e, _) => Raise e
  end.

(** [cls(event_class=..., ..., data=...)]: the dataclass [__init__] followed
    by the class's [__post_init__]. *)
Definition construct (cls : EventClass) (self : ReplayEvent) : result Event :=
  match cls with
  | cls_UnknownEvent => Ok (UnknownEvent self)
  | cls_LightEvent => on_data self LightEvent_post_init LightEvent
  | cls_GarageEvent => on_data self GarageEvent_post_init GarageEvent
  | cls_CheckpointEvent =>
      on_data self CheckpointEvent_post_init
        (fun s '(lap_or_sector_time, timestamp, lap, sector) =>
           CheckpointEvent s lap_or_sector_time timestamp lap sector)
  | cls_PitLaneEvent => on_data self PitLaneEvent_post_init PitLaneEvent
  | cls_OvertakeEvent => on_data self (OvertakeEvent_post_init self) OvertakeEvent
  | cls_TelemetryEvent => on_data self (TelemetryEvent_post_init self) TelemetryEvent
  end.

(* ===================================================================== *)
(** ** replay.py *)
(* ===================================================================== *)

(** The dict [_EVENT_TYPES], keyed by [(event_class, event_type)]. *)
Definition _EVENT_TYPES : gmap (Z * Z) EventClass :=
  list_to_map [
    (* Telemetry events with driver data such as position, speed, engine RPM, etc. *)
    ((0, 7), cls_TelemetryEvent);
    ((0, 8), cls_TelemetryEvent);
    ((0, 9), cls_TelemetryEvent);
    ((0, 10), cls_TelemetryEvent);
    ((0, 11), cls_TelemetryEvent);
    ((0, 12), cls_TelemetryEvent);
    ((0, 13), cls_TelemetryEvent);
    ((0, 14), cls_TelemetryEvent);
    ((0, 15), cls_TelemetryEvent);
    ((0, 16), cls_TelemetryEvent);
    (* Starting lights *)
    ((1, 10), cls_LightEvent);
    (* Garage events *)
    ((1, 7), cls_GarageEvent);
    (* Checkpoint events *)
    ((3, 6), cls_CheckpointEvent);
    (* Pit lane events *)
    ((5, 2), cls_PitLaneEvent);
    (* Overtake events *)
    ((3, 48), cls_OvertakeEvent)
  ].

(** [_EVENT_TYPES.get(key, events.UnknownEvent)] *)
Definition _EVENT_TYPES_get (key : Z * Z) : EventClass :=
  default cls_UnknownEvent (_EVENT_TYPES !! key).

Inductive SessionType := TEST_DAY | PRACTICE | QUALIFYING | WARMUP | RACE.

Record Driver := mkDriver {
  num : Z;
  name : str;
  codriver_name : str;
  vehicle_name : str;
  vehicle_uid : str;
  vehicle_version : str;
  veh_filename : str;
  time_enter : float;
  time_exit : float
}.

Record ReplayInfo := mkReplayInfo {
  version : bytes;
  rfm : str;
  mod_info : str;
  slice_count : Z;
  event_count_total : Z;
  time_start : float;
  time_end : float;
  scn_filename : str;
  aiw_filename : str;
  mod_name : str;
  mod_version : str;
  mod_uid : str;
  track_path : str;
  session_type : SessionType;
  is_private_session : bool
}.

(** The int literal [0] stored in the float-typed fields. *)
Definition zero : float := S754_zero false.

Definition set_slice_count (v : Z) (i : ReplayInfo) : ReplayInfo :=
  mkReplayInfo (version i) (rfm i) (mod_info i) v (event_count_total i)
    (time_start i) (time_end i) (scn_filename i) (aiw_filename i) (mod_name i)
    (mod_version i) (mod_uid i) (track_path i) (session_type i)
    (is_private_session i).

Definition set_event_count_total (v : Z) (i : ReplayInfo) : ReplayInfo :=
  mkReplayInfo (version i) (rfm i) (mod_info i) (slice_count i) v
    (time_start i) (time_end i) (scn_filename i) (aiw_filename i) (mod_name i)
    (mod_version i) (mod_uid i) (track_path i) (session_type i)
    (is_private_session i).

Definition set_time_start (v : float) (i : ReplayInfo) : ReplayInfo :=
  mkReplayInfo (version i) (rfm i) (mod_info i) (slice_count i)
    (event_count_total i) v (time_end i) (scn_filename i) (aiw_filename i)
    (mod_name i) (mod_version i) (mod_uid i) (track_path i) (session_type i)
    (is_private_session i).

Definition set_time_end (v : float) (i : ReplayInfo) : ReplayInfo :=
  mkReplayInfo (version i) (rfm i) (mod_info i) (slice_count i)
    (event_count_total i) (time_start i) v (scn_filename i) (aiw_filename i)
    (mod_name i) (mod_version i) (mod_uid i) (track_path i) (session_type i)
    (is_private_session i).

(** The attributes of a [Replay] object.  [info] is a mutable object owned by
    the replay; [vcr_file] is the stream every method reads from. *)
Record Replay := mkReplay {
  vcr_file : BytesIO;
  info : ReplayInfo;
  drivers : list Driver
}.

(** [Replay._read_session_info] (the [print] of the number is not modelled). *)
Definition _read_session_info : M (SessionType * bool) :=
  do session_info <- read_integer 1 false;
  let session_type_number := session_info & 15 in
  do session_type <-
    (if session_type_number =? 0 then ret TEST_DAY
     else if (1 <=? session_type_number) && (session_type_number <=? 4)
          then ret PRACTICE
     else if (5 <=? session_type_number) && (session_type_number <=? 8)
          then ret QUALIFYING
     else if session_type_number =? 9 then ret WARMUP
     else if (10 <=? session_type_number) && (session_type_number <=? 13)
          then ret RACE
     else raise (ValueError session_type_number));
  let is_private_session := (session_info >> 7 & 1) =? 1 in
  ret (session_type, is_private_session).

(** [Replay._read_replay_info] *)
Definition _read_replay_info : M ReplayInfo :=
  (* Find the start of the vcr header (index of occurrence of 0x0A) *)
  do content <- read_to_end;
  let header := bytes_find content x0a + 1 in
  seek header ;;
  read 4 ;;  (* isr tag *)
  do version <- read 4;
  do rfm <- read_string 4;
  read 4 ;;  (* Unknown *)
  do mod_info <- read_string 4;
  do scn_filename <- read_string 4;
  do aiw_filename <- read_string 4;
  do mod_name <- read_string 2;
  do mod_version <- read_string 2;
  do mod_uid <- read_string 2;
  do track_path <- read_string 2;
  read 1 ;;
  do '(session_type, is_private_session) <- _read_session_info;
  read 67 ;;  (* Unknown *)
  ret (mkReplayInfo version rfm mod_info 0 0 zero zero scn_filename
         aiw_filename mod_name mod_version mod_uid track_path session_type
         is_private_session).

(** One iteration of the loop of [Replay._read_driver_list]. *)
Definition read_driver : M Driver :=
  do num <- read_integer 1 false;
  do name <- read_string 1;
  do codriver_name <- read_string 1;
  do vehicle_name <- read_string 2;
  do vehicle_version <- read_string 2;
  do vehicle_uid <- read_string 2;
  do veh_filename <- read_bytes_as_string 32;
  read 48 ;;  (* Unknown *)
  do time_enter <- read_float 4 false;
  do time_exit <- read_float 4 false;
  ret (mkDriver num name codriver_name vehicle_name vehicle_uid
         vehicle_version veh_filename time_enter time_exit).

(** [for _ in range(n): ... drivers.append(driver)] *)
Fixpoint read_drivers (n : nat) (drivers : list Driver) : M (list Driver) :=
  match n with
  | O => ret drivers
  | S n' =>
      do driver <- read_driver;
      read_drivers n' (drivers ++ [driver])
  end.

(** [Replay._read_driver_list] *)
Definition _read_driver_list : M (list Driver) :=
  do driver_count <- read_integer 4 false;
  read_drivers (Z.to_nat driver_count) [].

(** A method that reads from [self.vcr_file]. *)
Definition on_vcr_file {A} (m : M A) (self : Replay) : result A * Replay :=
  let '(r, f) := m (vcr_file self) in
  (r, mkReplay f (info self) (drivers self)).

Definition update_info (g : ReplayInfo -> ReplayInfo) (self : Replay) : Replay :=
  mkReplay (vcr_file self) (g (info self)) (drivers self).

(** [Replay._read_slices_header]: four reads, each assigned to a field of
    [self.info]. *)
Definition _read_slices_header (self : Replay) : result unit * Replay :=
  match on_vcr_file (read_integer 4 false) self with
  | (Raise e, self) => (Raise e, self)
  | (Ok v, self) =>
  let self := update_info (set_slice_count v) self in
  match on_vcr_file (read_integer 4 false) self with
  | (Raise e, self) => (Raise e, self)
  | (Ok v, self) =>
  let self := update_info (set_event_count_total v) self in
  match on_vcr_file (read_float 4 false) self with
  | (Raise e, self) => (Raise e, self)
  | (Ok v, self) =>
  let self := update_info (set_time_start v) self in
  match on_vcr_file (read_float 4 false) self with
  | (Raise e, self) => (Raise e, self)
  | (Ok v, self) =>
  let self := update_info (set_time_end v) self in
  (Ok tt, self)
  end end end end.

(** [Replay.__init__], from the stream [_open_vcr_file] returned. *)
Definition Replay_init (file : BytesIO) : result Replay :=
  match _read_replay_info file with
  | (Raise e, _) => Raise e
  | (Ok info, file) =>
  match _read_driver_list file with
  | (Raise e, _) => Raise e
  | (Ok drivers, file) =>
  match _read_slices_header (mkReplay file info drivers) with
  | (Raise e, _) => Raise e
  | (Ok _, self) => Ok self
  end end end.

(** The header fields unpacked in the body of [Replay.events]. *)
Definition unpack_event_size (event_header : Z) : Z := (event_header >> 8) & 511.
Definition unpack_event_class (event_header : Z) : Z := event_header >> 29.
Definition unpack_event_type (event_header : Z) : Z := (event_header >> 17) & 63.
Definition unpack_driver_id (event_header : Z) : Z := event_header & 255.

(** The body of the inner loop of [Replay.events]: the event it yields. *)
Definition read_event (slice_time : float) : M Event :=
  do event_header <- read_integer 4 false;
  let event_size := unpack_event_size event_header in
  let event_class := unpack_event_class event_header in
  let event_type := unpack_event_type event_header in
  let driver_id := unpack_driver_id event_header in
  read 1 ;;  (* Unknown *)
  do event_data <- read event_size;
  let event := _EVENT_TYPES_get (event_class, event_type) in
  lift (construct event
          (mkReplayEvent event_class event_type slice_time
             (if negb (driver_id =? 255) then Some driver_id else None)
             event_size (BytesIO_new event_data))).

(** What a generator does when run to its end: the events it yields, in
    order, and how it stops ([None]: exhausted; [Some e]: it raised [e]). *)
Definition run (A : Type) : Type := list A * option exception.

(** [for _ in range(slice_event_count): ... yield event(...)] *)
Fixpoint slice_events (n : nat) (slice_time : float) (self : Replay)
    : run Event * Replay :=
  match n with
  | O => (([], None), self)
  | S n' =>
      match on_vcr_file (read_event slice_time) self with
      | (Raise e, self) => (([], Some e), self)
      | (Ok ev, self) =>
          let '((evs, stop), self) := slice_events n' slice_time self in
          ((ev :: evs, stop), self)
      end
  end.

(** The two reads at the head of a slice. *)
Definition read_slice_header : M (float * Z) :=
  do slice_time <- read_float 4 false;
  do slice_event_count <- read_integer 2 false;
  ret (slice_time, slice_event_count).

(** [for _ in range(self.info.slice_count): ...] *)
Fixpoint slices (n : nat) (self : Replay) : run Event * Replay :=
  match n with
  | O => (([], None), self)
  | S n' =>
      match on_vcr_file read_slice_header self with
      | (Raise e, self) => (([], Some e), self)
      | (Ok (slice_time, slice_event_count), self) =>
          match slice_events (Z.to_nat slice_event_count) slice_time self with
          | ((evs, Some e), self) => ((evs, Some e), self)
          | ((evs, None), self) =>
              let '((evs', stop), self) := slices n' self in
              ((evs ++ evs', stop), self)
          end
      end
  end.

(** The property [Replay.events], iterated to its end: the events yielded
    and the replay object afterwards. *)
Definition events (self : Replay) : run Event * Replay :=
  slices (Z.to_nat (slice_count (info self))) self.

(* ===================================================================== *)
(** ** Auxiliary definitions for the statements *)
(* ===================================================================== *)

(** The stream [f] after [n] more bytes were consumed (or its end). *)
Definition advance (n : nat) (f : BytesIO) : BytesIO :=
  mkBytesIO (buf f) (pos f + length (take n (remaining f))).

(** The packed event header the way the specification lays it out, the
    inverse the round-trip property is stated against: driver in bits 0-7,
    size in bits 8-16, type in bits 17-22, class in bits 29-31.  (The decoder
    itself never packs.) *)
Definition pack_header (cls typ sz drv : Z) : Z :=
  Z.lor (Z.lor (Z.lor drv (Z.shiftl sz 8)) (Z.shiftl typ 17)) (Z.shiftl cls 29).

(** The unpacking of [Replay.events], as one tuple (class, type, size, driver). *)
Definition unpack_header (event_header : Z) : Z * Z * Z * Z :=
  (unpack_event_class event_header, unpack_event_type event_header,
   unpack_event_size event_header, unpack_driver_id event_header).

(** The session-type table of the specification, indexed by the low nibble:
    0 -> TestDay, 1-4 -> Practice, 5-8 -> Qualifying, 9 -> Warmup,
    10-13 -> Race; nothing for 14 and 15. *)
Definition session_type_table : list SessionType :=
  [ TEST_DAY; PRACTICE; PRACTICE; PRACTICE; PRACTICE;
    QUALIFYING; QUALIFYING; QUALIFYING; QUALIFYING; WARMUP;
    RACE; RACE; RACE; RACE ].

(** The fields every class inherits: those passed to the constructor. *)
Definition same_header (s s' : ReplayEvent) : Prop :=
  event_class s' = event_class s /\ event_type s' = event_type s
  /\ time s' = time s /\ driver s' = driver s /\ size s' = size s.

(** [type(event)] *)
Definition class_of (ev : Event) : EventClass :=
  match ev with
  | UnknownEvent _ => cls_UnknownEvent
  | LightEvent _ _ => cls_LightEvent
  | GarageEvent _ _ => cls_GarageEvent
  | CheckpointEvent _ _ _ _ _ => cls_CheckpointEvent
  | PitLaneEvent _ _ => cls_PitLaneEvent
  | OvertakeEvent _ _ => cls_OvertakeEvent
  | TelemetryEvent _ _ => cls_TelemetryEvent
  end.

(** *** Sample data *)

(** A telemetry content of 63 bytes: two packed words, 5 + 25 skipped bytes,
    the TC/brakes byte and six binary32 values. *)
Definition sample_telemetry_content : bytes :=
  [ x40; xfc; x61; x6d;          (* info1 *)
    x81; x00; xc0; x0d;          (* info2 *)
    x01; x02; x03; x04; x05 ]    (* speed *)
  ++ repeat x00 25               (* unknown *)
  ++ [ x85;                      (* tc level 2, brakes 5 *)
       x00; x00; x80; x3f;       (* 1.0 *)
       x00; x00; x00; x40;       (* 2.0 *)
       x00; x00; x00; xc0;       (* -2.0 *)
       x00; x00; x00; x00;       (* 0.0 *)
       x00; x00; x80; x7f;       (* inf *)
       x00; x00; x00; x3f ].     (* 0.5 *)

(** One slice with two events: a telemetry event (class 0, type 11, size 63,
    driver 255) and an event of the unmapped pair (7, 1) with 3 bytes for
    driver 5. *)
Definition sample_slices : bytes :=
  [ x0a; x00; x00; x00;          (* slice time *)
    x02; x00;                    (* slice event count *)
    xff; x3f; x16; x00; x00 ]    (* packed header, unknown byte *)
  ++ sample_telemetry_content
  ++ [ x05; x03; x02; xe0; x00;  (* packed header, unknown byte *)
       xaa; xbb; xcc ].

Definition sample_info : ReplayInfo :=
  mkReplayInfo [] [] [] 1 2 zero zero [] [] [] [] [] [] RACE false.

Definition sample_replay : Replay :=
  mkReplay (BytesIO_new sample_slices) sample_info [].

(** What holds of a telemetry event of the stream: its dispatch key and gear. *)
Definition gear_in_range (ev : Event) : Prop :=
  match ev with
  | TelemetryEvent s t =>
      event_class s = 0 /\ 7 <= event_type s <= 16
      /\ gear t = event_type s - 8 /\ -1 <= gear t <= 8
  | _ => True
  end.

(** The bits of the second packed word the [dpart_*] fields are read from, in
    the order of [dpart_flags]: debris 11..4 from bits 7..0, debris 3..0 from
    bits 31..28, then rear wing, front wing, rear right, rear left, front
    right, front left from bits 27..22. *)
Definition dpart_bits : list Z :=
  [7; 6; 5; 4; 3; 2; 1; 0; 31; 30; 29; 28; 27; 26; 25; 24; 23; 22].

Definition sample_event : ReplayEvent :=
  mkReplayEvent 0 11 zero None 63 (BytesIO_new sample_telemetry_content).

(** The stream [f] once everything was consumed. *)
Definition at_end (f : BytesIO) : BytesIO := advance (length (remaining f)) f.


(** A whole replay file: a text line, the header (empty strings, session
    byte 0x8A), no driver, the summary (1 slice, 2 events, times 10 and 20)
    and the slice of [sample_slices]. *)
Definition sample_file : bytes :=
  [ x56; x43; x52; x0a;          (* first line *)
    x69; x73; x72; x20;          (* isr tag *)
    x31; x2e; x32; x30 ]         (* version *)
  ++ repeat x00 4                (* rfm *)
  ++ repeat x00 4                (* unknown *)
  ++ repeat x00 12               (* mod_info, scn_filename, aiw_filename *)
  ++ repeat x00 8                (* mod_name, mod_version, mod_uid, track_path *)
  ++ [ x00; x8a ]                (* unknown, session info *)
  ++ repeat x00 67               (* unknown *)
  ++ repeat x00 4                (* driver count *)
  ++ [ x01; x00; x00; x00;       (* slice_count *)
       x02; x00; x00; x00;       (* event_count_total *)
       x0a; x00; x00; x00;       (* time_start *)
       x14; x00; x00; x00 ]      (* time_end *)
  ++ sample_slices.

(** The fields of [ReplayInfo] that [_read_slices_header] does not assign. *)
Definition same_metadata (i i' : ReplayInfo) : Prop :=
  version i' = version i /\ rfm i' = rfm i /\ mod_info i' = mod_info i
  /\ scn_filename i' = scn_filename i /\ aiw_filename i' = aiw_filename i
  /\ mod_name i' = mod_name i /\ mod_version i' = mod_version i
  /\ mod_uid i' = mod_uid i /\ track_path i' = track_path i
  /\ session_type i' = session_type i
  /\ is_private_session i' = is_private_session i.

(* ===================================================================== *)
(** ** Further definitions for the statements *)
(* ===================================================================== *)

(** A byte of a 7-bit, non-NUL character. *)
Definition is_ascii_char (b : byte) : Prop :=
  (0 < Byte.to_N b < 128)%N.

(** A computation that only reads forward: it keeps the content of the
    stream, does not move the position back and, from a position inside the
    content, does not move it past the end. *)
Definition forward {A} (m : M A) : Prop :=
  forall f,
    buf (snd (m f)) = buf f
    /\ (pos f <= pos (snd (m f)))%nat
    /\ ((pos f <= length (buf f))%nat -> (pos (snd (m f)) <= length (buf f))%nat).

(** A computation that sees the unread bytes only: from two streams with the
    same unread bytes it gives the same result and leaves the same unread
    bytes. *)
Definition positionless {A} (m : M A) : Prop :=
  forall f g,
    remaining f = remaining g ->
    fst (m f) = fst (m g) /\ remaining (snd (m f)) = remaining (snd (m g)).

(** What iterating may change of a replay object: the position of its
    stream, forward and within the content. *)
Definition replay_forward (self self' : Replay) : Prop :=
  buf (vcr_file self') = buf (vcr_file self)
  /\ (pos (vcr_file self) <= pos (vcr_file self'))%nat
  /\ ((pos (vcr_file self) <= length (buf (vcr_file self)))%nat ->
      (pos (vcr_file self') <= length (buf (vcr_file self)))%nat)
  /\ drivers self' = drivers self
  /\ info self' = info self.

(** A float that is a non-negative number: zero or positive and finite. *)
Definition nonneg_finite (x : float) : Prop :=
  x = zero \/ exists m e, x = S754_finite false m e.

(** What holds of the header fields and of the content of an event of the
    stream: 3-bit class, 6-bit type, 9-bit size, a content of at most [size]
    bytes, read no further than its end. *)
Definition well_framed (ev : Event) : Prop :=
  0 <= event_class (base ev) <= 7
  /\ 0 <= event_type (base ev) <= 63
  /\ 0 <= size (base ev) <= 511
  /\ Z.of_nat (length (buf (data (base ev)))) <= size (base ev)
  /\ (pos (data (base ev)) <= length (buf (data (base ev))))%nat.




(** [a == b] on bytes objects. *)
Fixpoint bytes_eqb (a b : bytes) : bool :=
  match a, b with
  | [], [] => true
  | x :: a', y :: b' => Byte.eqb x y && bytes_eqb a' b'
  | _, _ => false
  end.

(** [Replay._open_vcr_file] on a file of content [raw].  [gzip.open] belongs
    to the Python library: the stream it returns for the file is the
    parameter [gzip_open]. *)
Definition _open_vcr_file (gzip_open : bytes -> BytesIO) (raw : bytes) : BytesIO :=
  let vcr_file := BytesIO_new raw in
  let gz_header := [x1f; x8b] in
  match read 2 vcr_file with
  | (Ok gz, vcr_file) =>
      if bytes_eqb gz gz_header then gzip_open raw else vcr_file
  | (Raise _, vcr_file) => vcr_file
  end.

(* ===================================================================== *)
(** * Properties *)
(* ===================================================================== *)

(** ** Bytes and integers *)

Lemma byte_val_range (b : byte) : 0 <= byte_val b < 256.
Proof.
  unfold byte_val. pose proof (Byte.to_N_bounded b). lia.
Qed.

Lemma from_bytes_unsigned_range (data : bytes) :
  0 <= from_bytes_unsigned data < 256 ^ Z.of_nat (length data).
Proof.
  induction data as [|b rest IH]; simpl from_bytes_unsigned.
  - simpl. lia.
  - pose proof (byte_val_range b).
    replace (Z.of_nat (length (b :: rest))) with (Z.succ (Z.of_nat (length rest)))
      by (simpl length; lia).
    rewrite Z.pow_succ_r by lia. lia.
Qed.

Lemma int_from_bytes_unsigned (data : bytes) :
  int_from_bytes data false = from_bytes_unsigned data.
Proof. reflexivity. Qed.

Lemma from_bytes_unsigned_lt (data : bytes) (n : nat) :
  (length data <= n)%nat -> 0 <= from_bytes_unsigned data < 256 ^ Z.of_nat n.
Proof.
  intros Hn. pose proof (from_bytes_unsigned_range data) as H.
  split; [lia|].
  eapply Z.lt_le_trans; [apply H|].
  apply Z.pow_le_mono_r; lia.
Qed.

(** ** Streams *)

Lemma remaining_advance (n : nat) (f : BytesIO) :
  remaining (advance n f) = drop n (remaining f).
Proof.
  unfold advance, remaining; simpl.
  rewrite <- drop_drop.
  generalize (drop (pos f) (buf f)) as rest. intros rest.
  destruct (Nat.le_gt_cases n (length rest)) as [Hle|Hgt].
  - rewrite length_take, Nat.min_l by lia. reflexivity.
  - rewrite take_ge by lia. rewrite !drop_ge by lia. reflexivity.
Qed.

Lemma read_nonneg (size : Z) (f : BytesIO) :
  0 <= size ->
  read size f = (Ok (take (Z.to_nat size) (remaining f)), advance (Z.to_nat size) f).
Proof.
  intros Hs. unfold read, advance.
  destruct (Z.ltb_spec size 0); [lia|]. reflexivity.
Qed.


Lemma read_integer_nonneg (size : Z) (signed : bool) (f : BytesIO) :
  0 <= size ->
  read_integer size signed f =
    (Ok (int_from_bytes (take (Z.to_nat size) (remaining f)) signed),
     advance (Z.to_nat size) f).
Proof.
  intros Hs. unfold read_integer, bind, ret. rewrite read_nonneg by exact Hs.
  reflexivity.
Qed.

(** ** Bit fields *)

Lemma lor_shiftl_add (a b k : Z) :
  0 <= k -> 0 <= a < 2 ^ k -> Z.lor a (Z.shiftl b k) = a + b * 2 ^ k.
Proof.
  intros Hk Ha.
  rewrite <- Z.lxor_lor, <- Z.add_nocarry_lxor, Z.shiftl_mul_pow2; try lia.
  all: apply Z.bits_inj'; intros n Hn; rewrite Z.land_spec, Z.bits_0.
  all: destruct (Z.lt_ge_cases n k) as [Hlt|Hge].
  all: try (rewrite Z.shiftl_spec_low by lia; apply andb_false_r).
  all: destruct (Z.eq_dec a 0) as [->|Hne]; [rewrite Z.bits_0; reflexivity|].
  all: rewrite (Z.bits_above_log2 a n); [reflexivity|lia|].
  all: apply Z.log2_lt_pow2; try lia.
  all: eapply Z.lt_le_trans; [apply Ha|apply Z.pow_le_mono_r; lia].
Qed.

Lemma pack_header_sum (cls typ sz drv : Z) :
  0 <= cls -> 0 <= typ < 64 -> 0 <= sz < 512 -> 0 <= drv < 256 ->
  pack_header cls typ sz drv
  = drv + sz * 2 ^ 8 + typ * 2 ^ 17 + cls * 2 ^ 29.
Proof.
  intros Hc Ht Hs Hd. unfold pack_header.
  rewrite (lor_shiftl_add drv sz 8) by lia.
  rewrite (lor_shiftl_add _ typ 17) by lia.
  rewrite (lor_shiftl_add _ cls 29) by lia.
  reflexivity.
Qed.

(** C2: for class in [0,7], type in [0,63], size in [0,511] and driver in
    [0,255], unpacking the packed header word gives back
    (class, type, size, driver). *)
Theorem unpack_pack_header (cls typ sz drv : Z) :
  0 <= cls <= 7 -> 0 <= typ <= 63 -> 0 <= sz <= 511 -> 0 <= drv <= 255 ->
  unpack_header (pack_header cls typ sz drv) = (cls, typ, sz, drv).
Proof.
  intros Hc Ht Hs Hd.
  rewrite pack_header_sum by lia.
  unfold unpack_header, unpack_event_class, unpack_event_type,
    unpack_event_size, unpack_driver_id.
  change 63 with (Z.ones 6). change 511 with (Z.ones 9). change 255 with (Z.ones 8).
  rewrite !Z.land_ones, !Z.shiftr_div_pow2 by lia.
  change (2 ^ 8) with 256. change (2 ^ 17) with 131072.
  change (2 ^ 29) with 536870912. change (2 ^ 6) with 64. change (2 ^ 9) with 512.
  repeat f_equal; Z.div_mod_to_equations; lia.
Qed.

Lemma unpack_pack_header_witness :
  unpack_header (pack_header 3 48 21 255) = (3, 48, 21, 255).
Proof. apply unpack_pack_header; lia. Defined.

(** ** Session info *)

Lemma remaining_at (pre rest : bytes) :
  remaining (mkBytesIO (pre ++ rest) (length pre)) = rest.
Proof. unfold remaining; simpl. apply drop_app_length. Qed.

(** C4: the session-info byte maps its low nibble to the session type by the
    table 0 -> TestDay, 1-4 -> Practice, 5-8 -> Qualifying, 9 -> Warmup,
    10-13 -> Race, takes the private flag from bit 7, and raises exactly when
    the nibble is 14 or 15; 0x00 gives TestDay/non-private and 0x8A gives
    Race/private. *)
Theorem read_session_info_table (pre rest : bytes) (b : byte) :
  let f := mkBytesIO (pre ++ b :: rest) (length pre) in
  let nibble := byte_val b mod 16 in
  let r := fst (_read_session_info f) in
  r = match session_type_table !! Z.to_nat nibble with
      | Some t => Ok (t, Z.testbit (byte_val b) 7)
      | None => Raise (ValueError nibble)
      end
  /\ (raises r <-> nibble = 14 \/ nibble = 15)
  /\ fst (_read_session_info (mkBytesIO (pre ++ x00 :: rest) (length pre)))
     = Ok (TEST_DAY, false)
  /\ fst (_read_session_info (mkBytesIO (pre ++ x8a :: rest) (length pre)))
     = Ok (RACE, true).
Proof.
  assert (Hrun : forall b0,
    fst (_read_session_info (mkBytesIO (pre ++ b0 :: rest) (length pre)))
    = match session_type_table !! Z.to_nat (byte_val b0 mod 16) with
      | Some t => Ok (t, Z.testbit (byte_val b0) 7)
      | None => Raise (ValueError (byte_val b0 mod 16))
      end).
  { intros b0. unfold _read_session_info, bind at 1.
    rewrite read_integer_nonneg, remaining_at by lia.
    change (take (Z.to_nat 1) (b0 :: rest)) with [b0].
    generalize (advance (Z.to_nat 1) (mkBytesIO (pre ++ b0 :: rest) (length pre))).
    intros f'. destruct b0; vm_compute; reflexivity. }
  cbv zeta. rewrite !Hrun. repeat split.
  - intros [e He]. destruct b; vm_compute in He |- *; try discriminate He; auto.
  - intros Hn. destruct b; vm_compute in Hn |- *;
      try (eexists; reflexivity); destruct Hn; discriminate.
Qed.

Lemma read_session_info_table_witness :
  fst (_read_session_info (mkBytesIO [x00; x8a] 1)) = Ok (RACE, true)
  /\ raises (fst (_read_session_info (mkBytesIO [x00; x0e] 1))).
Proof.
  split.
  - exact (proj2 (proj2 (proj2 (read_session_info_table [x00] [] x8a)))).
  - apply (proj1 (proj2 (read_session_info_table [x00] [] x0e))).
    left. reflexivity.
Defined.

(** ** The dispatch table *)

Ltac lookup_step :=
  lazymatch goal with
  | |- (<[?k:=_]> _) !! ?k' = _ =>
      destruct (decide (k = k')) as [Heq|?];
      [ injection Heq as <- <-; rewrite lookup_insert_eq;
        repeat case_decide; first [reflexivity | lia | congruence]
      | rewrite lookup_insert_ne by assumption ]
  end.

Lemma _EVENT_TYPES_lookup (c t : Z) :
  _EVENT_TYPES !! (c, t) =
    if decide (c = 0 /\ 7 <= t <= 16) then Some cls_TelemetryEvent
    else if decide ((c, t) = (1, 10)) then Some cls_LightEvent
    else if decide ((c, t) = (1, 7)) then Some cls_GarageEvent
    else if decide ((c, t) = (3, 6)) then Some cls_CheckpointEvent
    else if decide ((c, t) = (5, 2)) then Some cls_PitLaneEvent
    else if decide ((c, t) = (3, 48)) then Some cls_OvertakeEvent
    else None.
Proof.
  unfold _EVENT_TYPES. cbn [list_to_map foldr fst snd uncurry].
  do 15 lookup_step.
  rewrite lookup_empty.
  repeat case_decide; try reflexivity; try congruence.
  exfalso.
  match goal with H : c = 0 /\ _ |- _ => destruct H as [-> Ht] end.
  assert (t = 7 \/ t = 8 \/ t = 9 \/ t = 10 \/ t = 11 \/ t = 12 \/ t = 13
          \/ t = 14 \/ t = 15 \/ t = 16) as Hcases by lia.
  repeat (destruct Hcases as [->|Hcases]; [congruence|]). congruence.
Qed.

Lemma _EVENT_TYPES_get_telemetry (c t : Z) :
  _EVENT_TYPES_get (c, t) = cls_TelemetryEvent <-> c = 0 /\ 7 <= t <= 16.
Proof.
  unfold _EVENT_TYPES_get. rewrite _EVENT_TYPES_lookup.
  repeat case_decide; simpl; split; (discriminate || tauto || idtac).
Qed.


(** ** Running the readers *)

Lemma advance_advance (m n : nat) (f : BytesIO) :
  advance n (advance m f) = advance (m + n) f.
Proof.
  unfold advance at 1. rewrite remaining_advance.
  unfold advance; simpl. f_equal.
  rewrite !length_take, length_drop. lia.
Qed.

Lemma bind_ret {A B} (a : A) (k : A -> M B) (f : BytesIO) :
  bind (ret a) k f = k a f.
Proof. reflexivity. Qed.

Lemma bind_read {B} (size : Z) (k : bytes -> M B) (f : BytesIO) :
  0 <= size ->
  bind (read size) k f
  = k (take (Z.to_nat size) (remaining f)) (advance (Z.to_nat size) f).
Proof. intros Hs. unfold bind. rewrite read_nonneg by exact Hs. reflexivity. Qed.

Lemma bind_read_integer {B} (size : Z) (signed : bool) (k : Z -> M B) (f : BytesIO) :
  0 <= size ->
  bind (read_integer size signed) k f
  = k (int_from_bytes (take (Z.to_nat size) (remaining f)) signed)
      (advance (Z.to_nat size) f).
Proof.
  intros Hs. unfold bind. rewrite read_integer_nonneg by exact Hs. reflexivity.
Qed.

Lemma bind_read_float2 {B} (size : Z) (k : float -> M B) (f : BytesIO) :
  0 <= size ->
  bind (read_float2 size) k f
  = match struct_unpack_f (take (Z.to_nat size) (remaining f)) with
    | Ok x => k x (advance (Z.to_nat size) f)
    | Raise e => (Raise e, advance (Z.to_nat size) f)
    end.
Proof.
  intros Hs. unfold read_float2, bind, lift. rewrite read_nonneg by exact Hs.
  destruct (struct_unpack_f _); reflexivity.
Qed.

Lemma bind_read_float {B} (size : Z) (signed : bool) (k : float -> M B) (f : BytesIO) :
  0 <= size ->
  bind (read_float size signed) k f
  = match float_of_int (int_from_bytes (take (Z.to_nat size) (remaining f)) signed) with
    | Ok x => k x (advance (Z.to_nat size) f)
    | Raise e => (Raise e, advance (Z.to_nat size) f)
    end.
Proof.
  intros Hs. unfold read_float, bind, lift. rewrite read_nonneg by exact Hs.
  destruct (float_of_int _); reflexivity.
Qed.

Lemma struct_unpack_f_Ok (data : bytes) :
  length data = 4%nat ->
  struct_unpack_f data = Ok (float32_of_bits (from_bytes_unsigned data)).
Proof. intros H. unfold struct_unpack_f. rewrite H. reflexivity. Qed.

Lemma struct_unpack_f_Raise (data : bytes) :
  length data <> 4%nat -> struct_unpack_f data = Raise struct_error.
Proof.
  intros H. unfold struct_unpack_f.
  destruct (Nat.eqb_spec (length data) 4); [contradiction|reflexivity].
Qed.

Lemma length_word (k n : nat) (r : bytes) :
  (k + n <= length r)%nat -> length (take n (drop k r)) = n.
Proof. intros H. rewrite length_take, length_drop. lia. Qed.

(** Rewriting a sequence of reads on [f] into reads at offsets of
    [remaining f]. *)
Ltac run_reads :=
  repeat first
    [ rewrite bind_read_integer by lia
    | rewrite bind_read by lia
    | rewrite bind_ret
    | rewrite advance_advance
    | rewrite remaining_advance ];
  repeat match goal with
    | |- context [Z.to_nat (Zpos ?p)] =>
        let n := eval compute in (Z.to_nat (Zpos p)) in
        change (Z.to_nat (Zpos p)) with n
    end;
  cbn [Nat.add].

(** ** The telemetry decoder *)

(** The payload length the telemetry decoder consumes:
    4 + 4 + 5 + 25 + 1 + 6 * 4. *)
Lemma TelemetryEvent_post_init_Ok (self : ReplayEvent) (f : BytesIO) :
  (63 <= length (remaining f))%nat ->
  let r := remaining f in
  let word k := from_bytes_unsigned (take 4 (drop k r)) in
  let info1 := word 0%nat in
  let info2 := word 4%nat in
  let tc_brakes := from_bytes_unsigned (take 1 (drop 38 r)) in
  TelemetryEvent_post_init self f =
    (Ok (mkTelemetry (event_type self - 8)
           (info1 & 127) (info1 >> 11 & 63) (info1 >> 18)
           (nonzero (info1 >> 17 & 1)) (nonzero (info1 >> 10 & 1))
           ((info2 >> 24) & 255)
           (nonzero (info2 >> 23 & 1)) (nonzero (info2 >> 22 & 1))
           (nonzero (info2 >> 21 & 1)) (nonzero (info2 >> 20 & 1))
           ((info2 >> 18) & 3)
           (nonzero ((info2 >> 7) & 1)) (nonzero ((info2 >> 6) & 1))
           (nonzero ((info2 >> 5) & 1)) (nonzero ((info2 >> 4) & 1))
           (nonzero ((info2 >> 3) & 1)) (nonzero ((info2 >> 2) & 1))
           (nonzero ((info2 >> 1) & 1)) (nonzero ((info2 >> 0) & 1))
           (nonzero ((info2 >> 31) & 1)) (nonzero ((info2 >> 30) & 1))
           (nonzero ((info2 >> 29) & 1)) (nonzero ((info2 >> 28) & 1))
           (nonzero ((info2 >> 27) & 1)) (nonzero ((info2 >> 26) & 1))
           (nonzero ((info2 >> 25) & 1)) (nonzero ((info2 >> 24) & 1))
           (nonzero ((info2 >> 23) & 1)) (nonzero ((info2 >> 22) & 1))
           (tc_brakes >> 6) (tc_brakes & 63)
           (float32_of_bits (word 39%nat)) (float32_of_bits (word 43%nat))
           (float32_of_bits (word 47%nat)) (float32_of_bits (word 51%nat))
           (float32_of_bits (word 55%nat)) (float32_of_bits (word 59%nat))),
     advance 63 f).
Proof.
  intros Hlen r word info1 info2 tc_brakes.
  unfold TelemetryEvent_post_init.
  run_reads.
  repeat (rewrite bind_read_float2 by lia; run_reads;
          rewrite struct_unpack_f_Ok by (apply length_word; lia)).
  run_reads. unfold ret.
  rewrite !int_from_bytes_unsigned. reflexivity.
Qed.

Lemma TelemetryEvent_post_init_Raise (self : ReplayEvent) (f : BytesIO) :
  (length (remaining f) < 63)%nat ->
  fst (TelemetryEvent_post_init self f) = Raise struct_error.
Proof.
  intros Hlen. unfold TelemetryEvent_post_init.
  run_reads.
  repeat (rewrite bind_read_float2 by lia; run_reads;
          match goal with
          | |- context [struct_unpack_f ?d] =>
              let Hd := fresh "Hd" in
              destruct (Nat.eq_dec (length d) 4%nat) as [Hd|Hd];
              [ rewrite (struct_unpack_f_Ok d Hd)
              | rewrite (struct_unpack_f_Raise d Hd); reflexivity ]
          end).
  exfalso.
  repeat match goal with
    | H : length (take _ (drop _ _)) = _ |- _ =>
        rewrite length_take, length_drop in H
    end.
  lia.
Qed.

(** ** Floats: conversions that are exact *)

Lemma digits2_pos_size (p : positive) : digits2_pos p = Pos.size p.
Proof. induction p; simpl; congruence. Qed.

Lemma digits2_pos_iter_xO (k p : positive) :
  Zpos (digits2_pos (Pos.iter xO p k)) = Zpos (digits2_pos p) + Zpos k.
Proof.
  induction k as [|k IH] using Pos.peano_ind.
  - simpl. lia.
  - rewrite Pos.iter_succ. simpl digits2_pos. lia.
Qed.

Lemma iter_xO_pow2 (k p : positive) :
  Zpos (Pos.iter xO p k) = Zpos p * 2 ^ Zpos k.
Proof.
  induction k as [|k IH] using Pos.peano_ind.
  - simpl. lia.
  - rewrite Pos.iter_succ, Pos2Z.inj_succ, Z.pow_succ_r by lia.
    rewrite Pos2Z.inj_xO, IH. lia.
Qed.

Lemma digits2_pos_bound (p : positive) (n : Z) :
  0 <= n -> Zpos p < 2 ^ n -> Zpos (digits2_pos p) <= n.
Proof.
  intros Hn Hp. rewrite digits2_pos_size.
  destruct (Z.le_gt_cases (Zpos (Pos.size p)) n) as [|Hgt]; [assumption|exfalso].
  pose proof (Pos.size_le p) as Hle.
  assert (Hpow : 2 ^ (n + 1) <= 2 ^ Zpos (Pos.size p))
    by (apply Z.pow_le_mono_r; lia).
  rewrite Z.pow_add_r in Hpow by lia.
  assert (Zpos (2 ^ Pos.size p) <= Zpos p~0) by exact Hle.
  rewrite Pos2Z.inj_pow in *. lia.
Qed.

(** A mantissa that already has 53 digits is not shifted. *)
Lemma shr_fexp_canonical (m : positive) (e : Z) (l : location) :
  Zpos (digits2_pos m) = 53 -> -1074 <= e ->
  shr_fexp prec64 emax64 (Zpos m) e l = (shr_record_of_loc (Zpos m) l, e).
Proof.
  intros Hd He. unfold shr_fexp, Zdigits2. rewrite Hd.
  replace (fexp prec64 emax64 (53 + e) - e) with 0
    by (unfold fexp, emin, prec64, emax64; lia).
  reflexivity.
Qed.

Lemma binary_round_aux_canonical (s : bool) (m : positive) (e : Z) :
  Zpos (digits2_pos m) = 53 -> -1074 <= e <= 971 ->
  binary_round_aux prec64 emax64 s (Zpos m) e loc_Exact = S754_finite s m e.
Proof.
  intros Hd He. unfold binary_round_aux.
  rewrite shr_fexp_canonical by lia. cbn [shr_record_of_loc shr_m loc_of_shr_record round_nearest_even].
  rewrite shr_fexp_canonical by lia. cbn [shr_record_of_loc shr_m].
  replace (e <=? emax64 - prec64) with true
    by (symmetry; apply Z.leb_le; unfold emax64, prec64; lia).
  reflexivity.
Qed.

(** Rounding a mantissa of at most 53 digits to binary64 loses nothing: the
    result is finite and denotes the same number [m * 2^e]. *)
Lemma binary_round_exact (s : bool) (p : positive) (e : Z) :
  let d := Zpos (digits2_pos p) in
  d <= 53 -> -1074 <= d + e - 53 <= 971 ->
  exists m, binary_round prec64 emax64 s p e = S754_finite s m (d + e - 53)
            /\ Zpos m = Zpos p * 2 ^ (53 - d).
Proof.
  intros d Hd He. unfold binary_round.
  replace (fexp prec64 emax64 (Zpos (digits2_pos p) + e)) with (d + e - 53)
    by (unfold fexp, emin, prec64, emax64; fold d; lia).
  unfold shl_align.
  destruct (d + e - 53 - e) as [|k|k] eqn:Hk; [| lia |].
  - assert (d = 53) as Hd53 by lia.
    exists p. split.
    + rewrite binary_round_aux_canonical by (fold d; lia).
      f_equal. lia.
    + rewrite Hd53. simpl. lia.
  - assert (Zpos k = 53 - d) as Hk' by lia.
    exists (Pos.iter xO p k). split.
    + apply binary_round_aux_canonical; [|lia].
      rewrite digits2_pos_iter_xO. fold d. lia.
    + rewrite iter_xO_pow2, Hk'. reflexivity.
Qed.

(** [float(value)] is exact, and returns, on every int below [2^53]: in
    particular on what 4 bytes hold. *)
Lemma float_of_int_exact (value : Z) :
  0 <= value < 2 ^ 53 ->
  float_of_int value = Ok zero /\ value = 0
  \/ exists m e, float_of_int value = Ok (S754_finite false m e)
                 /\ e <= 0 /\ Zpos m = value * 2 ^ (- e).
Proof.
  intros Hv. destruct value as [|p|p]; [left; split; reflexivity| |lia].
  right. unfold float_of_int, binary_normalize.
  pose proof (digits2_pos_bound p 53 ltac:(lia) ltac:(lia)) as Hd.
  destruct (binary_round_exact false p 0 Hd) as (m & Hm & Hval); [lia|].
  rewrite Hm. eexists _, _. split; [reflexivity|]. split; [lia|].
  rewrite Hval. do 2 f_equal. lia.
Qed.

Lemma float_of_int_returns (value : Z) :
  0 <= value < 2 ^ 53 -> exists x, float_of_int value = Ok x.
Proof.
  intros Hv. destruct (float_of_int_exact value Hv) as [[-> _]|(m & e & -> & _)];
    eexists; reflexivity.
Qed.

Lemma float_of_word_returns (data : bytes) :
  (length data <= 4)%nat -> exists x, float_of_int (int_from_bytes data false) = Ok x.
Proof.
  intros Hlen. apply float_of_int_returns. rewrite int_from_bytes_unsigned.
  pose proof (from_bytes_unsigned_lt data 4 Hlen) as H.
  change (256 ^ Z.of_nat 4) with 4294967296 in H.
  change (2 ^ 53) with 9007199254740992. lia.
Qed.

(** ** Event construction *)

Lemma length_take_le {A} (n : nat) (l : list A) : (length (take n l) <= n)%nat.
Proof. rewrite length_take. lia. Qed.

Lemma read_float_word_returns (f : BytesIO) :
  exists x, read_float 4 false f = (Ok x, advance 4 f).
Proof.
  unfold read_float, bind, lift. rewrite read_nonneg by lia.
  destruct (float_of_word_returns (take (Z.to_nat 4) (remaining f))) as [x Hx];
    [apply length_take_le|].
  exists x. rewrite Hx. reflexivity.
Qed.

Lemma bind_read_float_word {B} (k : float -> M B) (f : BytesIO) :
  exists x, bind (read_float 4 false) k f = k x (advance 4 f).
Proof.
  destruct (read_float_word_returns f) as [x Hx].
  exists x. unfold bind. rewrite Hx. reflexivity.
Qed.

Ltac run_read_float :=
  match goal with
  | |- context [bind (read_float 4 false) ?k ?f] =>
      let x := fresh "x" in let Hx := fresh "Hx" in
      destruct (bind_read_float_word k f) as [x Hx]; rewrite Hx; clear Hx
  | |- context [read_float 4 false ?f] =>
      let x := fresh "x" in let Hx := fresh "Hx" in
      destruct (read_float_word_returns f) as [x Hx]; rewrite Hx; clear Hx
  end.

Lemma same_header_set_data (self : ReplayEvent) (d : BytesIO) :
  same_header self (set_data self d).
Proof. repeat split. Qed.

Lemma same_header_refl (self : ReplayEvent) : same_header self self.
Proof. repeat split. Qed.

(** A constructor returns an event of its class with the header fields it was
    given. *)
Lemma construct_Ok (cls : EventClass) (self : ReplayEvent) (ev : Event) :
  construct cls self = Ok ev ->
  class_of ev = cls /\ same_header self (base ev).
Proof.
  destruct cls; cbn [construct]; unfold on_data;
    [ intros [= <-]; split; [reflexivity|apply same_header_refl] | ..].
  all: match goal with
       | |- match ?x with _ => _ end = _ -> _ => destruct x as [[a|e] d]
       end; intros [= <-].
  all: try (split; [reflexivity|apply same_header_set_data]).
  destruct a as [[[? ?] ?] ?]. split; [reflexivity|apply same_header_set_data].
Qed.

(** Only the telemetry constructor can raise, and only [struct.error], on a
    content shorter than the 63 bytes it decodes. *)
Lemma construct_Raise (cls : EventClass) (self : ReplayEvent) (e : exception) :
  construct cls self = Raise e ->
  cls = cls_TelemetryEvent /\ e = struct_error
  /\ (length (remaining (data self)) < 63)%nat.
Proof.
  destruct cls; cbn [construct]; unfold on_data.
  - discriminate.
  - unfold LightEvent_post_init. rewrite read_integer_nonneg by lia. discriminate.
  - unfold GarageEvent_post_init. run_read_float. discriminate.
  - unfold CheckpointEvent_post_init. do 2 run_read_float. run_reads.
    unfold ret. discriminate.
  - unfold PitLaneEvent_post_init. rewrite read_integer_nonneg by lia. discriminate.
  - unfold OvertakeEvent_post_init, read_bytes. run_reads. unfold read. discriminate.
  - destruct (Nat.le_gt_cases 63 (length (remaining (data self)))) as [Hle|Hgt].
    + rewrite TelemetryEvent_post_init_Ok by exact Hle. discriminate.
    + pose proof (TelemetryEvent_post_init_Raise self (data self) Hgt) as Hr.
      destruct (TelemetryEvent_post_init self (data self)) as [[t|e'] d];
        simpl in Hr; [discriminate|].
      intros [= <-]. injection Hr as ->. auto.
Qed.

Lemma construct_telemetry_Ok (self : ReplayEvent) (ev : Event) :
  construct cls_TelemetryEvent self = Ok ev ->
  exists t d, TelemetryEvent_post_init self (data self) = (Ok t, d)
              /\ ev = TelemetryEvent (set_data self d) t.
Proof.
  cbn [construct]; unfold on_data.
  destruct (TelemetryEvent_post_init self (data self)) as [[t|e] d]; intros [= <-].
  exists t, d. split; reflexivity.
Qed.

(** ** One event of the stream *)

Lemma unpack_event_size_range (h : Z) : 0 <= unpack_event_size h <= 511.
Proof.
  unfold unpack_event_size. change 511 with (Z.ones 9).
  rewrite Z.land_ones by lia.
  pose proof (Z.mod_pos_bound (h >> 8) (2 ^ 9) ltac:(lia)).
  change (2 ^ 9) with 512 in *. change (Z.ones 9) with 511. lia.
Qed.

Lemma unpack_driver_id_range (h : Z) : 0 <= unpack_driver_id h <= 255.
Proof.
  unfold unpack_driver_id. change 255 with (Z.ones 8).
  rewrite Z.land_ones by lia.
  pose proof (Z.mod_pos_bound h (2 ^ 8) ltac:(lia)).
  change (2 ^ 8) with 256 in *. change (Z.ones 8) with 255. lia.
Qed.

(** The header word the event at the head of [f] starts with. *)
Lemma read_event_eq (slice_time : float) (f : BytesIO) :
  let h := from_bytes_unsigned (take 4 (remaining f)) in
  let event_size := unpack_event_size h in
  let driver_id := unpack_driver_id h in
  read_event slice_time f =
    (construct (_EVENT_TYPES_get (unpack_event_class h, unpack_event_type h))
       (mkReplayEvent (unpack_event_class h) (unpack_event_type h) slice_time
          (if negb (driver_id =? 255) then Some driver_id else None)
          event_size
          (BytesIO_new (take (Z.to_nat event_size) (drop 5 (remaining f))))),
     advance (5 + Z.to_nat event_size) f).
Proof.
  intros h event_size driver_id. unfold read_event.
  rewrite bind_read_integer by lia. rewrite int_from_bytes_unsigned.
  change (Z.to_nat 4) with 4%nat. fold h.
  rewrite bind_read by lia.
  rewrite bind_read by (apply unpack_event_size_range).
  change (Z.to_nat 1) with 1%nat.
  rewrite !advance_advance, !remaining_advance. reflexivity.
Qed.

Lemma TelemetryEvent_post_init_inv (self : ReplayEvent) (f : BytesIO) (t : Telemetry) :
  fst (TelemetryEvent_post_init self f) = Ok t ->
  (63 <= length (remaining f))%nat.
Proof.
  intros Ht. destruct (Nat.le_gt_cases 63 (length (remaining f))) as [|Hgt];
    [assumption|].
  rewrite TelemetryEvent_post_init_Raise in Ht by exact Hgt. discriminate.
Qed.

(** ** The generator *)

Lemma slice_events_S (n : nat) (slice_time : float) (self : Replay) :
  slice_events (S n) slice_time self =
    match on_vcr_file (read_event slice_time) self with
    | (Raise e, self) => (([], Some e), self)
    | (Ok ev, self) =>
        let '((evs, stop), self) := slice_events n slice_time self in
        ((ev :: evs, stop), self)
    end.
Proof. reflexivity. Qed.

Lemma slices_S (n : nat) (self : Replay) :
  slices (S n) self =
    match on_vcr_file read_slice_header self with
    | (Raise e, self) => (([], Some e), self)
    | (Ok (slice_time, slice_event_count), self) =>
        match slice_events (Z.to_nat slice_event_count) slice_time self with
        | ((evs, Some e), self) => ((evs, Some e), self)
        | ((evs, None), self) =>
            let '((evs', stop), self) := slices n self in
            ((evs ++ evs', stop), self)
        end
    end.
Proof. reflexivity. Qed.

Lemma on_vcr_file_info {A} (m : M A) (self : Replay) :
  info (snd (on_vcr_file m self)) = info self.
Proof. unfold on_vcr_file. destruct (m (vcr_file self)). reflexivity. Qed.

Lemma slice_events_info (n : nat) (slice_time : float) (self : Replay) :
  info (snd (slice_events n slice_time self)) = info self.
Proof.
  revert self. induction n as [|n IH]; intros self; [reflexivity|].
  rewrite slice_events_S.
  pose proof (on_vcr_file_info (read_event slice_time) self) as Hstep.
  destruct (on_vcr_file (read_event slice_time) self) as [[ev|e] self1];
    cbn [snd] in Hstep; [|exact Hstep].
  specialize (IH self1).
  destruct (slice_events n slice_time self1) as [[evs stop] self2].
  cbn [snd] in *. congruence.
Qed.

Lemma slices_info (n : nat) (self : Replay) :
  info (snd (slices n self)) = info self.
Proof.
  revert self. induction n as [|n IH]; intros self; [reflexivity|].
  rewrite slices_S.
  pose proof (on_vcr_file_info read_slice_header self) as Hhead.
  destruct (on_vcr_file read_slice_header self) as [[[slice_time c]|e] self1];
    cbn [snd] in Hhead; [|exact Hhead].
  pose proof (slice_events_info (Z.to_nat c) slice_time self1) as Hin.
  destruct (slice_events (Z.to_nat c) slice_time self1) as [[evs [e|]] self2];
    cbn [snd] in Hin |- *; [congruence|].
  specialize (IH self2).
  destruct (slices n self2) as [[evs' stop] self3]. cbn [snd] in *. congruence.
Qed.

Section Yielded.
Variable P : Event -> Prop.
Hypothesis read_event_P :
  forall slice_time f ev, fst (read_event slice_time f) = Ok ev -> P ev.

Lemma slice_events_Forall (n : nat) (slice_time : float) (self : Replay) :
  Forall P (fst (fst (slice_events n slice_time self))).
Proof.
  revert self. induction n as [|n IH]; intros self; [constructor|].
  rewrite slice_events_S. unfold on_vcr_file.
  pose proof (read_event_P slice_time (vcr_file self)) as Hev.
  destruct (read_event slice_time (vcr_file self)) as [[ev|e] f1];
    [|constructor].
  match goal with |- context [slice_events n slice_time ?s] =>
    specialize (IH s); destruct (slice_events n slice_time s) as [[evs stop] self2]
  end.
  cbn [fst] in *. constructor; [apply Hev; reflexivity|exact IH].
Qed.

Lemma slices_Forall (n : nat) (self : Replay) :
  Forall P (fst (fst (slices n self))).
Proof.
  revert self. induction n as [|n IH]; intros self; [constructor|].
  rewrite slices_S.
  destruct (on_vcr_file read_slice_header self) as [[[slice_time c]|e] self1];
    [|constructor].
  pose proof (slice_events_Forall (Z.to_nat c) slice_time self1) as Hin.
  destruct (slice_events (Z.to_nat c) slice_time self1) as [[evs [e|]] self2];
    cbn [fst] in Hin |- *; [exact Hin|].
  specialize (IH self2).
  destruct (slices n self2) as [[evs' stop] self3]. cbn [fst] in *.
  apply Forall_app; split; assumption.
Qed.

Lemma events_Forall (self : Replay) : Forall P (fst (fst (events self))).
Proof. apply slices_Forall. Qed.
End Yielded.

(** ** The events of the stream *)

Lemma read_event_Ok (slice_time : float) (f : BytesIO) (ev : Event) :
  fst (read_event slice_time f) = Ok ev ->
  let h := from_bytes_unsigned (take 4 (remaining f)) in
  class_of ev = _EVENT_TYPES_get (unpack_event_class h, unpack_event_type h)
  /\ event_class (base ev) = unpack_event_class h
  /\ event_type (base ev) = unpack_event_type h
  /\ time (base ev) = slice_time
  /\ driver (base ev) = (if negb (unpack_driver_id h =? 255)
                         then Some (unpack_driver_id h) else None)
  /\ size (base ev) = unpack_event_size h.
Proof.
  rewrite read_event_eq. cbn [fst]. intros Hc. cbv zeta.
  apply construct_Ok in Hc as [Hcls (Hc & Ht & Htime & Hd & Hs)].
  cbn [event_class event_type time driver size] in *.
  repeat split; assumption.
Qed.

Lemma telemetry_gear_eq (self : ReplayEvent) (f : BytesIO) (t : Telemetry) :
  fst (TelemetryEvent_post_init self f) = Ok t -> gear t = event_type self - 8.
Proof.
  intros Ht. pose proof (TelemetryEvent_post_init_inv self f t Ht) as Hlen.
  rewrite TelemetryEvent_post_init_Ok in Ht by exact Hlen.
  injection Ht as <-. reflexivity.
Qed.

Lemma read_event_gear (slice_time : float) (f : BytesIO) (ev : Event) :
  fst (read_event slice_time f) = Ok ev -> gear_in_range ev.
Proof.
  intros Hev. pose proof (read_event_Ok slice_time f ev Hev) as (Hcls & Hc & Ht & _).
  destruct ev as [| | | | | |s t]; try exact I.
  cbn [class_of base] in *. symmetry in Hcls.
  pose proof Hcls as Hkey. rewrite <- Hc, <- Ht in Hkey.
  apply _EVENT_TYPES_get_telemetry in Hkey as [Hc0 Hrange].
  rewrite read_event_eq in Hev. cbn [fst] in Hev. rewrite Hcls in Hev.
  apply construct_telemetry_Ok in Hev as (t' & d & Hpost & Heq).
  apply (f_equal fst) in Hpost. apply telemetry_gear_eq in Hpost.
  injection Heq as -> <-.
  unfold gear_in_range. cbn [event_type event_class set_data] in *. lia.
Qed.

(** C5: the telemetry decoder sets the gear to [event_type - 8]; the dispatch
    table routes exactly class 0 with types 7 to 16 to it; so every telemetry
    event of the stream has its gear in -1..8. *)
Theorem telemetry_gear :
  (forall self f t,
     fst (TelemetryEvent_post_init self f) = Ok t -> gear t = event_type self - 8)
  /\ (forall c ty,
        _EVENT_TYPES_get (c, ty) = cls_TelemetryEvent <-> c = 0 /\ 7 <= ty <= 16)
  /\ (forall self, Forall gear_in_range (fst (fst (events self)))).
Proof.
  split; [exact telemetry_gear_eq|]. split; [exact _EVENT_TYPES_get_telemetry|].
  intros self. apply events_Forall. exact read_event_gear.
Qed.

Lemma telemetry_gear_witness :
  exists s t evs,
    fst (fst (events sample_replay)) = TelemetryEvent s t :: evs
    /\ event_type s = 11 /\ gear t = 3 /\ -1 <= gear t <= 8.
Proof.
  pose proof (proj2 (proj2 telemetry_gear) sample_replay) as Hall.
  remember (fst (fst (events sample_replay))) as evs eqn:Hrun.
  vm_compute in Hrun. subst evs.
  apply Forall_inv in Hall. destruct Hall as (_ & _ & Hgear & Hrange).
  eexists _, _, _. split; [reflexivity|].
  split; [reflexivity|]. split; [exact Hgear|exact Hrange].
Defined.

(** C6: an event read from a header whose driver field is 255 has driver
    [None]; for a field in 0..254 the driver is that int; no event of the
    stream has the driver 255. *)
Theorem driver_255_is_None :
  (forall slice_time f ev,
     fst (read_event slice_time f) = Ok ev ->
     let driver_id := unpack_driver_id (from_bytes_unsigned (take 4 (remaining f))) in
     0 <= driver_id <= 255
     /\ (driver_id = 255 -> driver (base ev) = None)
     /\ (0 <= driver_id <= 254 -> driver (base ev) = Some driver_id))
  /\ (forall self,
        Forall (fun ev => driver (base ev) <> Some 255) (fst (fst (events self)))).
Proof.
  assert (Hone : forall slice_time f ev,
     fst (read_event slice_time f) = Ok ev ->
     let driver_id := unpack_driver_id (from_bytes_unsigned (take 4 (remaining f))) in
     0 <= driver_id <= 255
     /\ (driver_id = 255 -> driver (base ev) = None)
     /\ (0 <= driver_id <= 254 -> driver (base ev) = Some driver_id)).
  { intros slice_time f ev Hev driver_id.
    apply read_event_Ok in Hev as (_ & _ & _ & _ & Hd & _).
    fold driver_id in Hd. rewrite Hd.
    split; [apply unpack_driver_id_range|].
    split; intros Hid.
    - rewrite Hid. reflexivity.
    - destruct (Z.eqb_spec driver_id 255); [lia|reflexivity]. }
  split; [exact Hone|].
  intros self. apply events_Forall. intros slice_time f ev Hev.
  destruct (Hone slice_time f ev Hev) as (Hrange & H255 & Hlow).
  intros Hd.
  destruct (Z.eq_dec (unpack_driver_id (from_bytes_unsigned (take 4 (remaining f)))) 255)
    as [Heq|Hne].
  - rewrite (H255 Heq) in Hd. discriminate.
  - rewrite Hlow in Hd by lia. injection Hd as Hd. lia.
Qed.

Lemma driver_255_is_None_witness :
  exists ev1 ev2,
    fst (fst (events sample_replay)) = [ev1; ev2]
    /\ driver (base ev1) = None /\ driver (base ev2) = Some 5
    /\ driver (base ev1) <> Some 255 /\ driver (base ev2) <> Some 255.
Proof.
  pose proof (proj2 driver_255_is_None sample_replay) as Hall.
  remember (fst (fst (events sample_replay))) as evs eqn:Hrun.
  vm_compute in Hrun. subst evs.
  apply Forall_cons in Hall as [H1 Hall]. apply Forall_inv in Hall.
  eexists _, _. split; [reflexivity|].
  split; [reflexivity|]. split; [reflexivity|]. split; assumption.
Defined.



(** ** Telemetry bit fields *)

Lemma nonzero_bit (x k : Z) : 0 <= k -> nonzero ((x >> k) & 1) = Z.testbit x k.
Proof.
  intros Hk. change 1 with (Z.ones 1) at 1. rewrite Z.land_ones by lia.
  change (2 ^ 1) with 2. rewrite <- Z.bit0_mod, Z.shiftr_spec by lia.
  rewrite Z.add_0_l. unfold nonzero. destruct (Z.testbit x k); reflexivity.
Qed.

Lemma field_bits (x k w : Z) :
  0 <= k -> 0 <= w -> (x >> k) & (Z.ones w) = (x / 2 ^ k) mod 2 ^ w.
Proof. intros Hk Hw. rewrite Z.land_ones, Z.shiftr_div_pow2 by lia. reflexivity. Qed.

Lemma testbit_low_byte (x i : Z) :
  0 <= i < 8 -> Z.testbit (x & 255) i = Z.testbit x i.
Proof.
  intros Hi. rewrite Z.land_spec. change 255 with (Z.ones 8).
  rewrite Z.ones_spec_low by lia. apply andb_true_r.
Qed.

(** C10: the front-left part flag is the warning-light flag (bit 22 of the
    second word) and the front-right part flag is the following flag (bit
    23); the rear-left and rear-right part flags are bits 0 and 1 of the
    acceleration byte (bits 24 and 25 of that word). *)
Theorem dpart_flags_overlap (self : ReplayEvent) (f : BytesIO) (t : Telemetry) :
  fst (TelemetryEvent_post_init self f) = Ok t ->
  let info2 := from_bytes_unsigned (take 4 (drop 4 (remaining f))) in
  dpart_fl t = warning_light t /\ warning_light t = Z.testbit info2 22
  /\ dpart_fr t = following t /\ following t = Z.testbit info2 23
  /\ dpart_rl t = Z.testbit (acceleration t) 0 /\ dpart_rl t = Z.testbit info2 24
  /\ dpart_rr t = Z.testbit (acceleration t) 1 /\ dpart_rr t = Z.testbit info2 25.
Proof.
  intros Ht info2. pose proof (TelemetryEvent_post_init_inv self f t Ht) as Hlen.
  rewrite TelemetryEvent_post_init_Ok in Ht by exact Hlen.
  injection Ht as <-. fold info2.
  cbn [dpart_fl warning_light dpart_fr following dpart_rl dpart_rr acceleration].
  rewrite !testbit_low_byte, !Z.shiftr_spec, !nonzero_bit by lia.
  repeat split.
Qed.

Lemma dpart_flags_overlap_witness :
  exists t,
    fst (TelemetryEvent_post_init
           (mkReplayEvent 0 11 zero None 63 (BytesIO_new sample_telemetry_content))
           (BytesIO_new sample_telemetry_content)) = Ok t
    /\ dpart_fl t = warning_light t /\ dpart_fr t = following t
    /\ dpart_rl t = Z.testbit (acceleration t) 0
    /\ dpart_rr t = Z.testbit (acceleration t) 1.
Proof.
  set (self := mkReplayEvent 0 11 zero None 63 (BytesIO_new sample_telemetry_content)).
  set (f := BytesIO_new sample_telemetry_content).
  destruct (fst (TelemetryEvent_post_init self f)) as [t|e] eqn:Ht;
    [|vm_compute in Ht; discriminate Ht].
  exists t. split; [reflexivity|].
  destruct (dpart_flags_overlap self f t Ht) as (H1 & _ & H2 & _ & H3 & _ & H4 & _).
  repeat split; assumption.
Defined.

(** C3, as stated, fails: the decoder fills 18 detachable-part/debris flags,
    not 12; here the rear-wing and front-wing flags are among the set ones. *)
Lemma telemetry_has_18_dpart_flags :
  exists t,
    fst (TelemetryEvent_post_init sample_event (data sample_event)) = Ok t
    /\ length (dpart_flags t) = 18%nat
    /\ length (dpart_flags t) <> 12%nat
    /\ dpart_rwing t = true /\ dpart_fwing t = true.
Proof.
  eexists. split; [vm_compute; reflexivity|].
  split; [reflexivity|]. split; [discriminate|]. split; reflexivity.
Qed.

(** C3, amended: on a content of at least 63 bytes the decoder returns, after
    consuming 63 bytes: the first word gives steer/yaw (bits 0-6), horn (bit
    10), throttle (bits 11-16), in-pit (bit 17) and engine RPM (bits 18 up);
    the second word gives the acceleration byte (bits 24-31), following (23),
    warning light (22), driver visible (21), head light (20), current driver
    (bits 18-19) and 18 detachable-part/debris flags (bits 7..0, 31..28 and
    27..22); 5 + 25 bytes are skipped; the byte at offset 38 splits into the
    TC level (2 high bits) and the brakes (6 low bits); the six position and
    rotation floats are the binary32 bit patterns at offsets 39..62.  On a
    shorter content the decoder raises [struct.error]. *)
Theorem telemetry_layout (self : ReplayEvent) (f : BytesIO) :
  let r := remaining f in
  let word k := from_bytes_unsigned (take 4 (drop k r)) in
  let info1 := word 0%nat in
  let info2 := word 4%nat in
  let tc_brakes := from_bytes_unsigned (take 1 (drop 38 r)) in
  ((63 <= length r)%nat ->
   exists t,
     TelemetryEvent_post_init self f = (Ok t, advance 63 f)
     /\ remaining (advance 63 f) = drop 63 r
     /\ steer_yaw t = info1 mod 2 ^ 7
     /\ horn t = Z.testbit info1 10
     /\ throttle t = (info1 / 2 ^ 11) mod 2 ^ 6
     /\ in_pit t = Z.testbit info1 17
     /\ engine_rpm t = info1 / 2 ^ 18
     /\ acceleration t = (info2 / 2 ^ 24) mod 2 ^ 8
     /\ following t = Z.testbit info2 23
     /\ warning_light t = Z.testbit info2 22
     /\ driver_visible t = Z.testbit info2 21
     /\ head_light t = Z.testbit info2 20
     /\ current_driver t = (info2 / 2 ^ 18) mod 2 ^ 2
     /\ dpart_flags t = map (Z.testbit info2) dpart_bits
     /\ length (dpart_flags t) = 18%nat
     /\ tc_level t = tc_brakes / 2 ^ 6 /\ 0 <= tc_level t < 2 ^ 2
     /\ brakes t = tc_brakes mod 2 ^ 6
     /\ pos_x t = float32_of_bits (word 39%nat)
     /\ pos_y t = float32_of_bits (word 43%nat)
     /\ pos_z t = float32_of_bits (word 47%nat)
     /\ rot_x t = float32_of_bits (word 51%nat)
     /\ rot_y t = float32_of_bits (word 55%nat)
     /\ rot_z t = float32_of_bits (word 59%nat))
  /\ ((length r < 63)%nat ->
      fst (TelemetryEvent_post_init self f) = Raise struct_error).
Proof.
  intros r word info1 info2 tc_brakes.
  split; [|apply TelemetryEvent_post_init_Raise].
  intros Hlen. eexists. split; [apply TelemetryEvent_post_init_Ok; exact Hlen|].
  fold r word. fold info1 info2 tc_brakes.
  cbn [steer_yaw horn throttle in_pit engine_rpm acceleration following
       warning_light driver_visible head_light current_driver dpart_flags
       dpart_debris11 dpart_debris10 dpart_debris9 dpart_debris8 dpart_debris7
       dpart_debris6 dpart_debris5 dpart_debris4 dpart_debris3 dpart_debris2
       dpart_debris1 dpart_debris0 dpart_rwing dpart_fwing dpart_rr dpart_rl
       dpart_fr dpart_fl tc_level brakes pos_x pos_y pos_z rot_x rot_y rot_z
       length map dpart_bits].
  rewrite !nonzero_bit by lia.
  change 127 with (Z.ones 7). change 63 with (Z.ones 6).
  change 255 with (Z.ones 8). change 3 with (Z.ones 2).
  rewrite !field_bits by lia. rewrite !Z.land_ones, !Z.shiftr_div_pow2 by lia.
  split; [apply remaining_advance|].
  repeat (split; [reflexivity|]).
  split.
  { pose proof (from_bytes_unsigned_lt (take 1 (drop 38 r)) 1
                  (length_take_le _ _)) as Hb.
    fold tc_brakes in Hb. change (256 ^ Z.of_nat 1) with 256 in Hb.
    change (2 ^ 6) with 64. change (2 ^ 2) with 4.
    split; [apply Z.div_pos; lia|apply Z.div_lt_upper_bound; lia]. }
  repeat split.
Qed.

Lemma telemetry_layout_witness :
  exists t,
    fst (TelemetryEvent_post_init sample_event (data sample_event)) = Ok t
    /\ steer_yaw t = 64 /\ horn t = true /\ throttle t = 63 /\ engine_rpm t = 7000
    /\ length (dpart_flags t) = 18%nat /\ tc_level t = 2 /\ brakes t = 5.
Proof.
  destruct (proj1 (telemetry_layout sample_event (data sample_event)))
    as (t & Hrun & _ & Hsteer & Hhorn & Hthr & _ & Hrpm & _ & _ & _ & _ & _ & _
        & _ & Hlen & Htc & _ & Hbr & _).
  { vm_compute. lia. }
  exists t. rewrite Hrun. split; [reflexivity|].
  rewrite Hsteer, Hhorn, Hthr, Hrpm, Htc, Hbr.
  repeat split; try exact Hlen; vm_compute; reflexivity.
Defined.

(** ** Reads past the end of the stream *)





Lemma remaining_at_end (f : BytesIO) : remaining (at_end f) = [].
Proof. unfold at_end. rewrite remaining_advance. apply drop_all. Qed.





(** ** The two phases of [ReplayInfo] *)

Lemma bind_Ok_inv {A B} (m : M A) (k : A -> M B) (f f' : BytesIO) (b : B) :
  bind m k f = (Ok b, f') ->
  exists a f1, m f = (Ok a, f1) /\ k a f1 = (Ok b, f').
Proof.
  unfold bind. destruct (m f) as [[a|e] f1]; [|discriminate].
  intros H. exists a, f1. split; [reflexivity|exact H].
Qed.

Lemma _read_replay_info_zero (f f' : BytesIO) (i : ReplayInfo) :
  _read_replay_info f = (Ok i, f') ->
  slice_count i = 0 /\ event_count_total i = 0
  /\ time_start i = zero /\ time_end i = zero.
Proof.
  unfold _read_replay_info. intros H.
  repeat (apply bind_Ok_inv in H as (? & ? & _ & H)).
  match goal with x : (SessionType * bool)%type |- _ => destruct x end.
  repeat (apply bind_Ok_inv in H as (? & ? & _ & H)).
  injection H as <- _. repeat split.
Qed.

Lemma read_float_eq (size : Z) (signed : bool) (f : BytesIO) :
  0 <= size ->
  read_float size signed f
  = (float_of_int (int_from_bytes (take (Z.to_nat size) (remaining f)) signed),
     advance (Z.to_nat size) f).
Proof.
  intros Hs. unfold read_float, bind, lift. rewrite read_nonneg by exact Hs.
  reflexivity.
Qed.

(** [_read_slices_header] returns, having assigned each of the four fields
    once, from the next 16 bytes. *)
Lemma _read_slices_header_Ok (self : Replay) :
  let r := remaining (vcr_file self) in
  let word k := from_bytes_unsigned (take 4 (drop k r)) in
  exists t_start t_end,
    float_of_int (word 8%nat) = Ok t_start
    /\ float_of_int (word 12%nat) = Ok t_end
    /\ _read_slices_header self
       = (Ok tt,
          mkReplay (advance 16 (vcr_file self))
            (set_time_end t_end
               (set_time_start t_start
                  (set_event_count_total (word 4%nat)
                     (set_slice_count (word 0%nat) (info self)))))
            (drivers self)).
Proof.
  intros r word.
  destruct (float_of_word_returns (take 4 (drop 8 r))) as [t_start Hs];
    [apply length_take_le|].
  destruct (float_of_word_returns (take 4 (drop 12 r))) as [t_end He];
    [apply length_take_le|].
  exists t_start, t_end. split; [exact Hs|]. split; [exact He|].
  unfold _read_slices_header, on_vcr_file, update_info.
  cbn [vcr_file info drivers].
  rewrite read_integer_nonneg by lia. cbn [vcr_file info drivers].
  rewrite read_integer_nonneg by lia. cbn [vcr_file info drivers].
  rewrite read_float_eq by lia. cbn [vcr_file info drivers].
  rewrite !advance_advance, !remaining_advance. change (Z.to_nat 4) with 4%nat.
  cbn [Nat.add]. fold r. rewrite Hs. cbn [vcr_file info drivers].
  rewrite read_float_eq by lia. cbn [vcr_file info drivers].
  rewrite !advance_advance, !remaining_advance. change (Z.to_nat 4) with 4%nat.
  cbn [Nat.add]. fold r. rewrite He. reflexivity.
Qed.

(** C9: the four summary fields are zero in the [ReplayInfo] the header
    decoder builds; opening the replay gives each the value read once from
    the summary header and keeps the other fields; iterating the events
    leaves the whole [ReplayInfo] as it was. *)
Theorem replay_info_two_phases :
  (forall f f' i,
     _read_replay_info f = (Ok i, f') ->
     slice_count i = 0 /\ event_count_total i = 0
     /\ time_start i = zero /\ time_end i = zero)
  /\ (forall file self,
        Replay_init file = Ok self ->
        exists i f1 ds f2,
          _read_replay_info file = (Ok i, f1)
          /\ _read_driver_list f1 = (Ok ds, f2)
          /\ drivers self = ds
          /\ same_metadata i (info self)
          /\ let word k := from_bytes_unsigned (take 4 (drop k (remaining f2))) in
             slice_count (info self) = word 0%nat
             /\ event_count_total (info self) = word 4%nat
             /\ float_of_int (word 8%nat) = Ok (time_start (info self))
             /\ float_of_int (word 12%nat) = Ok (time_end (info self)))
  /\ (forall self, info (snd (events self)) = info self).
Proof.
  split; [exact _read_replay_info_zero|]. split; [|intros self; apply slices_info].
  intros file self. unfold Replay_init.
  destruct (_read_replay_info file) as [[i|e] f1] eqn:Hi; [|discriminate].
  destruct (_read_driver_list f1) as [[ds|e] f2] eqn:Hds; [|discriminate].
  destruct (_read_slices_header_Ok (mkReplay f2 i ds)) as (ts & te & Hs & He & ->).
  intros [= <-]. exists i, f1, ds, f2. cbn [vcr_file info drivers] in *.
  split; [reflexivity|]. split; [exact Hds|]. split; [reflexivity|].
  split; [repeat split|]. cbv zeta.
  split; [reflexivity|]. split; [reflexivity|]. split; [exact Hs|exact He].
Qed.

Lemma replay_info_two_phases_witness :
  exists self,
    Replay_init (BytesIO_new sample_file) = Ok self
    /\ slice_count (info self) = 1 /\ event_count_total (info self) = 2
    /\ info (snd (events self)) = info self.
Proof.
  destruct (Replay_init (BytesIO_new sample_file)) as [self|e] eqn:Hinit;
    [|vm_compute in Hinit; discriminate Hinit].
  exists self. split; [reflexivity|].
  destruct (proj1 (proj2 replay_info_two_phases) _ _ Hinit)
    as (i & f1 & ds & f2 & Hinfo & Hds & _ & _ & Hn & Hc & _).
  vm_compute in Hinfo. injection Hinfo as <- <-.
  vm_compute in Hds. injection Hds as <- <-.
  rewrite Hn, Hc.
  split; [vm_compute; reflexivity|]. split; [vm_compute; reflexivity|].
  apply (proj2 (proj2 replay_info_two_phases)).
Defined.

(** ** The two float readers *)



Lemma read_float_word_exact (f : BytesIO) :
  let n := from_bytes_unsigned (take 4 (remaining f)) in
  read_float 4 false f = (float_of_int n, advance 4 f)
  /\ (float_of_int n = Ok zero /\ n = 0
      \/ exists m e, float_of_int n = Ok (S754_finite false m e)
                     /\ e <= 0 /\ Zpos m = n * 2 ^ (- e)).
Proof.
  intros n. split; [apply read_float_eq; lia|].
  apply float_of_int_exact.
  pose proof (from_bytes_unsigned_lt (take 4 (remaining f)) 4 (length_take_le _ _)) as H.
  fold n in H. change (256 ^ Z.of_nat 4) with 4294967296 in H.
  change (2 ^ 53) with 9007199254740992. lia.
Qed.








(* ===================================================================== *)
(** * Further properties of the decoder *)
(* ===================================================================== *)

(** ** utils.py: integers *)

Lemma byte_val_inj (a b : byte) : byte_val a = byte_val b -> a = b.
Proof.
  unfold byte_val. intros H. apply N2Z.inj in H.
  pose proof (Byte.of_to_N a) as Ha. rewrite H, Byte.of_to_N in Ha.
  congruence.
Qed.

Lemma from_bytes_unsigned_inj (a b : bytes) :
  length a = length b ->
  from_bytes_unsigned a = from_bytes_unsigned b -> a = b.
Proof.
  revert b. induction a as [|x a IH]; intros [|y b] Hlen; try discriminate.
  - reflexivity.
  - simpl from_bytes_unsigned. intros Hv.
    pose proof (byte_val_range x). pose proof (byte_val_range y).
    assert (byte_val x = byte_val y /\ from_bytes_unsigned a = from_bytes_unsigned b)
      as [Hx Hrest] by lia.
    f_equal; [apply byte_val_inj; exact Hx|].
    apply IH; [simpl in Hlen; lia|exact Hrest].
Qed.

Lemma from_bytes_unsigned_app (a b : bytes) :
  from_bytes_unsigned (a ++ b)
  = from_bytes_unsigned a + 256 ^ Z.of_nat (length a) * from_bytes_unsigned b.
Proof.
  induction a as [|x a IH]; [simpl; lia|].
  replace (Z.of_nat (length (x :: a))) with (Z.succ (Z.of_nat (length a)))
    by (simpl length; lia).
  rewrite Z.pow_succ_r by lia. simpl app. simpl from_bytes_unsigned.
  rewrite IH. lia.
Qed.

Lemma from_bytes_unsigned_zeros (j k : nat) :
  from_bytes_unsigned (take j (repeat x00 k)) = 0.
Proof.
  revert j. induction k as [|k IH]; intros [|j]; simpl; try reflexivity.
  rewrite IH. reflexivity.
Qed.



(** X2: on streams that hold the requested bytes, the little-endian value
    determines the bytes read. *)
Theorem read_integer_injective (size : Z) (f g : BytesIO) :
  0 <= size ->
  (Z.to_nat size <= length (remaining f))%nat ->
  (Z.to_nat size <= length (remaining g))%nat ->
  fst (read_integer size false f) = fst (read_integer size false g) ->
  take (Z.to_nat size) (remaining f) = take (Z.to_nat size) (remaining g).
Proof.
  intros Hs Hf Hg. rewrite !read_integer_nonneg by exact Hs. cbn [fst].
  rewrite !int_from_bytes_unsigned. intros [= Hv].
  apply from_bytes_unsigned_inj; [|exact Hv].
  rewrite !length_take. lia.
Qed.

Lemma read_integer_injective_witness :
  take 2 (remaining (BytesIO_new [x01; x02; x03]))
  = take 2 (remaining (mkBytesIO [xff; x01; x02] 1)).
Proof.
  apply (read_integer_injective 2); [lia|vm_compute; lia|vm_compute; lia|].
  vm_compute. reflexivity.
Defined.

(** X3: an integer read cut short by the end of the stream returns what the
    full read returns once the stream is padded with zero bytes. *)
Theorem read_integer_short_is_zero_padded (size : Z) (f : BytesIO) :
  0 <= size ->
  fst (read_integer size false f)
  = fst (read_integer size false
           (BytesIO_new (remaining f ++ repeat x00 (Z.to_nat size)))).
Proof.
  intros Hs. rewrite !read_integer_nonneg by exact Hs. cbn [fst].
  rewrite !int_from_bytes_unsigned. f_equal.
  change (remaining (BytesIO_new ?l)) with l.
  set (r := remaining f). set (n := Z.to_nat size).
  destruct (Nat.le_gt_cases n (length r)) as [Hle|Hgt].
  - rewrite take_app_le by exact Hle. reflexivity.
  - rewrite take_ge by lia. rewrite take_app_ge by lia.
    rewrite from_bytes_unsigned_app, from_bytes_unsigned_zeros. lia.
Qed.

Lemma read_integer_short_is_zero_padded_witness :
  fst (read_integer 4 false (BytesIO_new [x2a])) = Ok 42.
Proof.
  rewrite read_integer_short_is_zero_padded by lia. vm_compute. reflexivity.
Defined.

(** ** utils.py: strings *)

Lemma bytes_find_ge (data : bytes) (x : byte) : -1 <= bytes_find data x.
Proof.
  induction data as [|b rest IH]; simpl; [lia|].
  destruct (Byte.eqb b x); [lia|].
  destruct (Z.eqb_spec (bytes_find rest x) (-1)); lia.
Qed.

Lemma bytes_find_absent (data : bytes) (x : byte) :
  bytes_find data x = -1 -> ~ In x data.
Proof.
  induction data as [|b rest IH]; simpl; [tauto|].
  destruct (Byte.eqb b x) eqn:Hb; [discriminate|].
  destruct (Z.eqb_spec (bytes_find rest x) (-1)) as [Hr|Hr].
  - intros _ [->|Hin]; [|exact (IH Hr Hin)].
    rewrite (Byte.byte_dec_lb (x:=x) eq_refl) in Hb. discriminate.
  - pose proof (bytes_find_ge rest x). lia.
Qed.

Lemma bytes_find_present (data : bytes) (x : byte) :
  bytes_find data x <> -1 ->
  let i := Z.to_nat (bytes_find data x) in
  0 <= bytes_find data x
  /\ data = take i data ++ x :: drop (S i) data
  /\ ~ In x (take i data).
Proof.
  induction data as [|b rest IH]; simpl; [congruence|].
  destruct (Byte.eqb b x) eqn:Hb.
  - intros _. apply Byte.byte_dec_bl in Hb as ->. simpl.
    rewrite drop_0. split; [lia|]. split; [reflexivity|tauto].
  - destruct (Z.eqb_spec (bytes_find rest x) (-1)) as [Hr|Hr]; [congruence|].
    intros _. destruct (IH Hr) as (Hge & Heq & Hnin).
    replace (Z.to_nat (1 + bytes_find rest x)) with (S (Z.to_nat (bytes_find rest x)))
      by lia.
    simpl. split; [lia|]. split; [f_equal; exact Heq|].
    intros [->|Hin]; [|exact (Hnin Hin)].
    rewrite (Byte.byte_dec_lb (x:=x) eq_refl) in Hb. discriminate.
Qed.

(** The bytes kept by the truncation at the first NUL. *)
Lemma nul_truncate_spec (raw_bytes : bytes) :
  ~ In x00 (nul_truncate raw_bytes)
  /\ (nul_truncate raw_bytes = raw_bytes
      \/ exists rest, raw_bytes = nul_truncate raw_bytes ++ x00 :: rest).
Proof.
  unfold nul_truncate, slice_to.
  destruct (Z.eqb_spec (bytes_find raw_bytes x00) (-1)) as [Hnone|Hsome]; cbn [negb].
  - split; [apply bytes_find_absent; exact Hnone|left; reflexivity].
  - destruct (bytes_find_present raw_bytes x00 Hsome) as (_ & Heq & Hnin).
    split; [exact Hnin|]. right. eexists. exact Heq.
Qed.

Lemma nul_truncate_id (raw_bytes : bytes) :
  ~ In x00 raw_bytes -> nul_truncate raw_bytes = raw_bytes.
Proof.
  intros Hnin. destruct (nul_truncate_spec raw_bytes) as [_ [Heq|[rest Heq]]];
    [exact Heq|].
  exfalso. apply Hnin. rewrite Heq. apply in_or_app. right. left. reflexivity.
Qed.

Lemma nul_truncate_at_nul (name rest : bytes) :
  ~ In x00 name -> nul_truncate (name ++ x00 :: rest) = name.
Proof.
  intros Hnin. unfold nul_truncate, slice_to.
  assert (Hfind : bytes_find (name ++ x00 :: rest) x00 = Z.of_nat (length name)).
  { induction name as [|b name IH]; [reflexivity|].
    simpl app. cbn [bytes_find].
    destruct (Byte.eqb b x00) eqn:Hb.
    - apply Byte.byte_dec_bl in Hb. exfalso. apply Hnin. left. exact Hb.
    - rewrite IH by (intros Hin; apply Hnin; right; exact Hin).
      destruct (Z.eqb_spec (Z.of_nat (length name)) (-1)); [lia|].
      simpl length. lia. }
  rewrite Hfind. destruct (Z.eqb_spec (Z.of_nat (length name)) (-1)); [lia|].
  cbn [negb]. rewrite Nat2Z.id. apply take_app_length.
Qed.




Lemma decode_utf8_ascii (data : bytes) :
  Forall is_ascii_char data -> decode_utf8 data = Ok (map Byte.to_N data).
Proof.
  induction 1 as [|b rest Hb _ IH]; [reflexivity|].
  cbn [decode_utf8]. cbv zeta. unfold is_ascii_char in Hb.
  destruct (N.ltb_spec (Byte.to_N b) 128); [|lia].
  rewrite IH. reflexivity.
Qed.

Lemma ascii_no_nul (data : bytes) : Forall is_ascii_char data -> ~ In x00 data.
Proof.
  intros Hall Hin. rewrite Forall_forall in Hall. apply list_elem_of_In in Hin.
  specialize (Hall _ Hin). unfold is_ascii_char in Hall. simpl in Hall. lia.
Qed.

Lemma nul_truncate_text (text tail : bytes) :
  Forall is_ascii_char text ->
  tail = [] \/ (exists t, tail = x00 :: t) ->
  nul_truncate (text ++ tail) = text.
Proof.
  intros Htext [->|[t ->]].
  - rewrite app_nil_r. apply nul_truncate_id, ascii_no_nul, Htext.
  - apply nul_truncate_at_nul, ascii_no_nul, Htext.
Qed.



(** X5: a length-prefixed text of 7-bit characters, alone or followed inside
    its declared size by a NUL and anything else, reads back as those
    characters, and the stream is left after the declared size. *)
Theorem read_string_text (pre desc text tail rest : bytes) :
  from_bytes_unsigned desc = Z.of_nat (length (text ++ tail)) ->
  Forall is_ascii_char text ->
  tail = [] \/ (exists t, tail = x00 :: t) ->
  let f := mkBytesIO (pre ++ desc ++ (text ++ tail) ++ rest) (length pre) in
  read_string (Z.of_nat (length desc)) f
  = (Ok (map Byte.to_N text), advance (length desc + length (text ++ tail)) f)
  /\ remaining (advance (length desc + length (text ++ tail)) f) = rest.
Proof.
  intros Hsize Htext Htail f.
  assert (Hrem : remaining f = desc ++ (text ++ tail) ++ rest) by apply remaining_at.
  unfold read_string.
  rewrite bind_read by lia. rewrite Nat2Z.id, Hrem, take_app_length.
  rewrite int_from_bytes_unsigned, Hsize.
  rewrite bind_read by lia. rewrite Nat2Z.id, remaining_advance, Hrem.
  rewrite drop_app_length, take_app_length, advance_advance.
  rewrite nul_truncate_text by assumption.
  unfold lift. rewrite decode_utf8_ascii by exact Htext.
  split; [reflexivity|].
  rewrite remaining_advance, Hrem, <- drop_drop, !drop_app_length. reflexivity.
Qed.

Lemma read_string_text_witness :
  fst (read_string 2 (mkBytesIO [xff; x04; x00; x68; x69; x00; x21; x07] 1))
  = Ok [104%N; 105%N].
Proof.
  destruct (read_string_text [xff] [x04; x00] [x68; x69] [x00; x21] [x07])
    as [Hrun _].
  - reflexivity.
  - repeat constructor.
  - right. eexists. reflexivity.
  - cbv zeta in Hrun. simpl length in Hrun. simpl app in Hrun.
    change (Z.of_nat 2) with 2 in Hrun. rewrite Hrun. reflexivity.
Defined.

(** X6: a fixed-width field holding a text of 7-bit characters, NUL-padded
    or filling the field, reads back as the text, and the whole field is
    consumed. *)
Theorem read_bytes_as_string_field (pre text tail rest : bytes) :
  Forall is_ascii_char text ->
  tail = [] \/ (exists t, tail = x00 :: t) ->
  let f := mkBytesIO (pre ++ (text ++ tail) ++ rest) (length pre) in
  read_bytes_as_string (Z.of_nat (length (text ++ tail))) f
  = (Ok (map Byte.to_N text), advance (length (text ++ tail)) f)
  /\ remaining (advance (length (text ++ tail)) f) = rest.
Proof.
  intros Htext Htail f.
  assert (Hrem : remaining f = (text ++ tail) ++ rest) by apply remaining_at.
  unfold read_bytes_as_string.
  rewrite bind_read by lia. rewrite Nat2Z.id, Hrem, take_app_length.
  rewrite nul_truncate_text by assumption.
  unfold lift. rewrite decode_utf8_ascii by exact Htext.
  split; [reflexivity|].
  rewrite remaining_advance, Hrem, drop_app_length. reflexivity.
Qed.

Lemma read_bytes_as_string_field_witness :
  fst (read_bytes_as_string 4 (BytesIO_new [x61; x62; x00; x00; x63])) = Ok [97%N; 98%N].
Proof.
  destruct (read_bytes_as_string_field [] [x61; x62] [x00; x00] [x63]) as [Hrun _].
  - repeat constructor.
  - right. eexists. reflexivity.
  - cbv zeta in Hrun. simpl length in Hrun. simpl app in Hrun.
    change (Z.of_nat 4) with 4 in Hrun. unfold BytesIO_new. rewrite Hrun. reflexivity.
Defined.



(** ** events.py: the decoders *)

Lemma land_ones_range (x w : Z) : 0 <= w -> 0 <= x & Z.ones w < 2 ^ w.
Proof.
  intros Hw. rewrite Z.land_ones by exact Hw. apply Z.mod_pos_bound.
  apply Z.pow_pos_nonneg; lia.
Qed.

Lemma byte_word_range (data : bytes) :
  0 <= from_bytes_unsigned (take 1 data) <= 255.
Proof.
  pose proof (from_bytes_unsigned_lt (take 1 data) 1 (length_take_le _ _)) as H.
  change (256 ^ Z.of_nat 1) with 256 in H. lia.
Qed.

(** X8: the light and pit-lane events take their field from the first
    content byte, 0 when the content is empty; they never raise. *)
Theorem one_byte_events (self : ReplayEvent) :
  let v := from_bytes_unsigned (take 1 (remaining (data self))) in
  construct cls_LightEvent self
  = Ok (LightEvent (set_data self (advance 1 (data self))) v)
  /\ construct cls_PitLaneEvent self
     = Ok (PitLaneEvent (set_data self (advance 1 (data self))) v)
  /\ 0 <= v <= 255
  /\ (remaining (data self) = [] -> v = 0).
Proof.
  intros v. cbn [construct]. unfold on_data, LightEvent_post_init, PitLaneEvent_post_init.
  rewrite read_integer_nonneg by lia. rewrite int_from_bytes_unsigned.
  change (Z.to_nat 1) with 1%nat. fold v.
  split; [reflexivity|]. split; [reflexivity|].
  split; [apply byte_word_range|]. unfold v. intros ->. reflexivity.
Qed.

Lemma one_byte_events_witness :
  construct cls_LightEvent (mkReplayEvent 1 10 zero None 0 (BytesIO_new []))
  = Ok (LightEvent (mkReplayEvent 1 10 zero None 0 (BytesIO_new [])) 0).
Proof.
  destruct (one_byte_events (mkReplayEvent 1 10 zero None 0 (BytesIO_new [])))
    as (Hlight & _ & _ & Hzero).
  rewrite Hlight, (Hzero eq_refl). reflexivity.
Defined.

(** X9: the checkpoint event never raises; its lap is the byte at offset 8
    and its sector the two high bits of the byte at offset 9, so a sector
    is in 0..3; ten bytes of the content are consumed. *)
Theorem checkpoint_fields (self : ReplayEvent) :
  let r := remaining (data self) in
  let lap_byte := from_bytes_unsigned (take 1 (drop 8 r)) in
  let sector_byte := from_bytes_unsigned (take 1 (drop 9 r)) in
  exists t_lap t,
    construct cls_CheckpointEvent self
    = Ok (CheckpointEvent (set_data self (advance 10 (data self)))
            t_lap t lap_byte (sector_byte / 64))
    /\ 0 <= lap_byte <= 255 /\ 0 <= sector_byte / 64 <= 3.
Proof.
  intros r lap_byte sector_byte.
  cbn [construct]. unfold on_data, CheckpointEvent_post_init.
  do 2 run_read_float. run_reads. unfold ret.
  rewrite !int_from_bytes_unsigned. fold r. fold lap_byte sector_byte.
  assert (Hsector : (sector_byte >> 6) & 3 = sector_byte / 64).
  { pose proof (byte_word_range (drop 9 r)) as Hb. fold sector_byte in Hb.
    change 3 with (Z.ones 2). rewrite Z.land_ones, Z.shiftr_div_pow2 by lia.
    change (2 ^ 6) with 64. change (2 ^ 2) with 4.
    apply Z.mod_small. split; [apply Z.div_pos; lia|].
    apply Z.div_lt_upper_bound; lia. }
  rewrite Hsector. eexists _, _. split; [reflexivity|].
  split; [apply byte_word_range|].
  pose proof (byte_word_range (drop 9 r)) as Hb. fold sector_byte in Hb.
  split; [apply Z.div_pos; lia|].
  assert (sector_byte / 64 < 4) by (apply Z.div_lt_upper_bound; lia). lia.
Qed.



(** X11: the ranges of the integer fields of a decoded telemetry record. *)
Theorem telemetry_field_ranges (self : ReplayEvent) (f : BytesIO) (t : Telemetry) :
  fst (TelemetryEvent_post_init self f) = Ok t ->
  0 <= steer_yaw t <= 127 /\ 0 <= throttle t <= 63
  /\ 0 <= engine_rpm t < 2 ^ 14 /\ 0 <= acceleration t <= 255
  /\ 0 <= current_driver t <= 3 /\ 0 <= tc_level t <= 3
  /\ 0 <= brakes t <= 63.
Proof.
  intros Ht. pose proof (TelemetryEvent_post_init_inv self f t Ht) as Hlen.
  rewrite TelemetryEvent_post_init_Ok in Ht by exact Hlen.
  injection Ht as <-.
  cbn [steer_yaw throttle engine_rpm acceleration current_driver tc_level brakes].
  set (info1 := from_bytes_unsigned (take 4 (drop 0 (remaining f)))).
  set (info2 := from_bytes_unsigned (take 4 (drop 4 (remaining f)))).
  set (tcb := from_bytes_unsigned (take 1 (drop 38 (remaining f)))).
  pose proof (from_bytes_unsigned_lt (take 4 (drop 0 (remaining f))) 4
                (length_take_le _ _)) as H1.
  fold info1 in H1. change (256 ^ Z.of_nat 4) with (2 ^ 32) in H1.
  pose proof (byte_word_range (drop 38 (remaining f))) as Hb. fold tcb in Hb.
  pose proof (land_ones_range info1 7). pose proof (land_ones_range (info1 >> 11) 6).
  pose proof (land_ones_range (info2 >> 24) 8).
  pose proof (land_ones_range (info2 >> 18) 2).
  pose proof (land_ones_range tcb 6).
  change (Z.ones 7) with 127 in *. change (Z.ones 6) with 63 in *.
  change (Z.ones 8) with 255 in *. change (Z.ones 2) with 3 in *.
  change (2 ^ 7) with 128 in *. change (2 ^ 6) with 64 in *.
  change (2 ^ 8) with 256 in *. change (2 ^ 2) with 4 in *.
  rewrite !Z.shiftr_div_pow2 by lia.
  assert (0 <= info1 / 2 ^ 18 < 2 ^ 14).
  { split; [apply Z.div_pos; lia|]. apply Z.div_lt_upper_bound; [lia|].
    rewrite <- Z.pow_add_r by lia. exact (proj2 H1). }
  assert (0 <= tcb / 2 ^ 6 <= 3).
  { change (2 ^ 6) with 64. split; [apply Z.div_pos; lia|].
    assert (tcb / 64 < 4) by (apply Z.div_lt_upper_bound; lia). lia. }
  rewrite !Z.shiftr_div_pow2 in * by lia.
  repeat split; lia.
Qed.

Lemma telemetry_field_ranges_witness :
  exists t,
    fst (TelemetryEvent_post_init sample_event (data sample_event)) = Ok t
    /\ 0 <= engine_rpm t < 2 ^ 14 /\ 0 <= brakes t <= 63.
Proof.
  destruct (fst (TelemetryEvent_post_init sample_event (data sample_event)))
    as [t|e] eqn:Ht; [|vm_compute in Ht; discriminate Ht].
  exists t. split; [reflexivity|].
  destruct (telemetry_field_ranges _ _ _ Ht) as (_ & _ & Hrpm & _ & _ & _ & Hbr).
  split; assumption.
Defined.

Lemma word_of_head (k n m : nat) (a b : bytes) :
  (k + n <= m)%nat -> take m a = take m b ->
  take n (drop k a) = take n (drop k b).
Proof.
  intros Hk Hhead. rewrite !take_drop_commute.
  replace (take (k + n) a) with (take (k + n) (take m a))
    by (rewrite take_take; f_equal; lia).
  replace (take (k + n) b) with (take (k + n) (take m b))
    by (rewrite take_take; f_equal; lia).
  rewrite Hhead. reflexivity.
Qed.

Lemma word_of_tail (k n m : nat) (a b : bytes) :
  (m <= k)%nat -> drop m a = drop m b ->
  take n (drop k a) = take n (drop k b).
Proof.
  intros Hk Htail.
  replace k with (m + (k - m))%nat by lia. rewrite <- !drop_drop, Htail.
  reflexivity.
Qed.

(** X12: the telemetry decoder never looks at the speed field and the 25
    bytes after it: contents that agree on their first 8 bytes and from
    offset 38 on decode alike. *)
Theorem telemetry_ignores_skipped_bytes (self : ReplayEvent) (a b : bytes) :
  take 8 a = take 8 b -> drop 38 a = drop 38 b ->
  fst (TelemetryEvent_post_init self (BytesIO_new a))
  = fst (TelemetryEvent_post_init self (BytesIO_new b)).
Proof.
  intros Hhead Htail.
  assert (Hla : length (drop 38 a) = length (drop 38 b)) by (rewrite Htail; reflexivity).
  rewrite !length_drop in Hla.
  destruct (Nat.le_gt_cases 63 (length a)) as [Hlen|Hlen].
  - rewrite !TelemetryEvent_post_init_Ok
      by (change (remaining (BytesIO_new ?l)) with l; lia).
    change (remaining (BytesIO_new ?l)) with l. cbn [fst].
    rewrite (word_of_head 0 4 8 a b), (word_of_head 4 4 8 a b) by (lia || assumption).
    rewrite (word_of_tail 38 1 38 a b), (word_of_tail 39 4 38 a b),
      (word_of_tail 43 4 38 a b), (word_of_tail 47 4 38 a b),
      (word_of_tail 51 4 38 a b), (word_of_tail 55 4 38 a b),
      (word_of_tail 59 4 38 a b) by (lia || assumption).
    reflexivity.
  - rewrite !TelemetryEvent_post_init_Raise
      by (change (remaining (BytesIO_new ?l)) with l; lia).
    reflexivity.
Qed.

Lemma telemetry_ignores_skipped_bytes_witness :
  fst (TelemetryEvent_post_init sample_event
         (BytesIO_new (take 8 sample_telemetry_content ++ repeat xff 30
                       ++ drop 38 sample_telemetry_content)))
  = fst (TelemetryEvent_post_init sample_event (BytesIO_new sample_telemetry_content)).
Proof.
  apply telemetry_ignores_skipped_bytes; vm_compute; reflexivity.
Defined.

(** ** Reading forward *)

Lemma forward_read (size : Z) : forward (read size).
Proof.
  intros f. unfold read. cbn [fst snd buf pos]. split; [reflexivity|].
  split; [lia|]. intros Hp.
  assert (length (remaining f) = length (buf f) - pos f)%nat
    by (unfold remaining; apply length_drop).
  destruct (size <? 0); [lia|]. rewrite length_take. lia.
Qed.

Lemma forward_ret {A} (a : A) : forward (ret a).
Proof. intros f. cbn. auto. Qed.

Lemma forward_raise {A} (e : exception) : forward (@raise A e).
Proof. intros f. cbn. auto. Qed.

Lemma forward_lift {A} (r : result A) : forward (lift r).
Proof. intros f. cbn. auto. Qed.

Lemma forward_bind {A B} (m : M A) (k : A -> M B) :
  forward m -> (forall a, forward (k a)) -> forward (bind m k).
Proof.
  intros Hm Hk f. unfold bind. specialize (Hm f).
  destruct (m f) as [[a|e] f1]; cbn [snd] in Hm; [|exact Hm].
  destruct Hm as (Hb & Hp & Hl). destruct (Hk a f1) as (Hb' & Hp' & Hl').
  rewrite Hb in *. split; [congruence|]. split; [lia|]. auto.
Qed.

Lemma remaining_shift (f : BytesIO) (n : nat) :
  remaining (mkBytesIO (buf f) (pos f + n)) = drop n (remaining f).
Proof. unfold remaining. cbn [buf pos]. rewrite drop_drop. reflexivity. Qed.

Lemma positionless_read (size : Z) : positionless (read size).
Proof.
  intros f g Hrem. unfold read. cbn [fst snd].
  rewrite !remaining_shift, Hrem. split; reflexivity.
Qed.

Lemma positionless_ret {A} (a : A) : positionless (ret a).
Proof. intros f g Hrem. cbn. auto. Qed.

Lemma positionless_raise {A} (e : exception) : positionless (@raise A e).
Proof. intros f g Hrem. cbn. auto. Qed.

Lemma positionless_lift {A} (r : result A) : positionless (lift r).
Proof. intros f g Hrem. cbn. auto. Qed.

Lemma positionless_bind {A B} (m : M A) (k : A -> M B) :
  positionless m -> (forall a, positionless (k a)) -> positionless (bind m k).
Proof.
  intros Hm Hk f g Hrem. unfold bind. destruct (Hm f g Hrem) as [Hr Hs].
  destruct (m f) as [[a|e] f1], (m g) as [[a'|e'] g1]; cbn [fst snd] in *;
    try discriminate.
  - injection Hr as <-. apply Hk. exact Hs.
  - injection Hr as <-. auto.
Qed.

Ltac reader_step :=
  first
    [ apply forward_bind | apply forward_read | apply forward_ret
    | apply forward_raise | apply forward_lift
    | apply positionless_bind | apply positionless_read | apply positionless_ret
    | apply positionless_raise | apply positionless_lift
    | progress intros
    | match goal with |- context [let '(_, _) := ?x in _] => destruct x end
    | match goal with |- context [if ?c then _ else _] => destruct c end ].

Ltac reader := repeat reader_step.

Lemma forward_read_integer size signed : forward (read_integer size signed).
Proof. unfold read_integer. reader. Qed.
Lemma forward_read_float size signed : forward (read_float size signed).
Proof. unfold read_float. reader. Qed.
Lemma forward_read_float2 size : forward (read_float2 size).
Proof. unfold read_float2. reader. Qed.
Lemma forward_read_string d : forward (read_string d).
Proof. unfold read_string. reader. Qed.
Lemma forward_read_bytes_as_string size : forward (read_bytes_as_string size).
Proof. unfold read_bytes_as_string. reader. Qed.

Lemma positionless_read_integer size signed : positionless (read_integer size signed).
Proof. unfold read_integer. reader. Qed.
Lemma positionless_read_float size signed : positionless (read_float size signed).
Proof. unfold read_float. reader. Qed.
Lemma positionless_read_float2 size : positionless (read_float2 size).
Proof. unfold read_float2. reader. Qed.
Lemma positionless_read_string d : positionless (read_string d).
Proof. unfold read_string. reader. Qed.
Lemma positionless_read_bytes_as_string size : positionless (read_bytes_as_string size).
Proof. unfold read_bytes_as_string. reader. Qed.

(** X13: every reader of utils.py keeps the content of the stream, never
    moves the position back nor, from inside the content, past its end; and
    what it returns and leaves unread depends on the unread bytes only, not
    on the position. *)
Theorem utils_readers_read_forward :
  (forall size signed,
     forward (read_integer size signed) /\ positionless (read_integer size signed))
  /\ (forall size signed,
        forward (read_float size signed) /\ positionless (read_float size signed))
  /\ (forall size, forward (read_float2 size) /\ positionless (read_float2 size))
  /\ (forall d, forward (read_string d) /\ positionless (read_string d))
  /\ (forall size, forward (read_bytes size) /\ positionless (read_bytes size))
  /\ (forall size,
        forward (read_bytes_as_string size)
        /\ positionless (read_bytes_as_string size)).
Proof.
  split; [intros; split; [apply forward_read_integer|apply positionless_read_integer]|].
  split; [intros; split; [apply forward_read_float|apply positionless_read_float]|].
  split; [intros; split; [apply forward_read_float2|apply positionless_read_float2]|].
  split; [intros; split; [apply forward_read_string|apply positionless_read_string]|].
  split; [intros; split; [apply forward_read|apply positionless_read]|].
  intros; split; [apply forward_read_bytes_as_string|apply positionless_read_bytes_as_string].
Qed.

Lemma utils_readers_read_forward_witness :
  fst (read_string 1 (mkBytesIO [x00; x01; x41] 1))
  = fst (read_string 1 (BytesIO_new [x01; x41])).
Proof.
  destruct utils_readers_read_forward as (_ & _ & _ & Hstr & _).
  apply (proj2 (Hstr 1)). reflexivity.
Defined.

(** ** replay.py: the generator *)

Lemma forward_read_event slice_time : forward (read_event slice_time).
Proof. unfold read_event. reader. Qed.

Lemma forward_read_slice_header : forward read_slice_header.
Proof.
  unfold read_slice_header.
  apply forward_bind; [apply forward_read_float|intros].
  apply forward_bind; [apply forward_read_integer|intros]. apply forward_ret.
Qed.

Lemma replay_forward_refl (self : Replay) : replay_forward self self.
Proof. unfold replay_forward. auto. Qed.

Lemma replay_forward_trans (a b c : Replay) :
  replay_forward a b -> replay_forward b c -> replay_forward a c.
Proof.
  unfold replay_forward. intros (Hb & Hp & Hl & Hd & Hi) (Hb' & Hp' & Hl' & Hd' & Hi').
  rewrite Hb in *. repeat split; try congruence; try lia; auto.
Qed.

Lemma on_vcr_file_forward {A} (m : M A) (self : Replay) :
  forward m -> replay_forward self (snd (on_vcr_file m self)).
Proof.
  intros Hm. unfold on_vcr_file. specialize (Hm (vcr_file self)).
  destruct (m (vcr_file self)) as [r f]. cbn [snd] in *.
  unfold replay_forward. cbn [vcr_file drivers info]. tauto.
Qed.

Lemma slice_events_forward (n : nat) (slice_time : float) (self : Replay) :
  replay_forward self (snd (slice_events n slice_time self)).
Proof.
  revert self. induction n as [|n IH]; intros self; [apply replay_forward_refl|].
  rewrite slice_events_S.
  pose proof (on_vcr_file_forward (read_event slice_time) self
                (forward_read_event slice_time)) as Hstep.
  destruct (on_vcr_file (read_event slice_time) self) as [[ev|e] self1];
    cbn [snd] in Hstep; [|exact Hstep].
  specialize (IH self1).
  destruct (slice_events n slice_time self1) as [[evs stop] self2].
  cbn [snd] in *. eapply replay_forward_trans; eassumption.
Qed.

Lemma slices_forward (n : nat) (self : Replay) :
  replay_forward self (snd (slices n self)).
Proof.
  revert self. induction n as [|n IH]; intros self; [apply replay_forward_refl|].
  rewrite slices_S.
  pose proof (on_vcr_file_forward read_slice_header self forward_read_slice_header)
    as Hhead.
  destruct (on_vcr_file read_slice_header self) as [[[slice_time c]|e] self1];
    cbn [snd] in Hhead; [|exact Hhead].
  pose proof (slice_events_forward (Z.to_nat c) slice_time self1) as Hin.
  destruct (slice_events (Z.to_nat c) slice_time self1) as [[evs [e|]] self2];
    cbn [snd] in Hin |- *; [eapply replay_forward_trans; eassumption|].
  specialize (IH self2).
  destruct (slices n self2) as [[evs' stop] self3]. cbn [snd] in *.
  eapply replay_forward_trans; [eassumption|].
  eapply replay_forward_trans; eassumption.
Qed.

(** X14: iterating the events is forward-only: the content of the stream,
    the drivers and the replay info stay as they are, and the position only
    grows, without passing the end of the content. *)
Theorem events_forward_only (self : Replay) :
  replay_forward self (snd (events self)).
Proof. apply slices_forward. Qed.

Lemma events_forward_only_witness :
  pos (vcr_file (snd (events sample_replay))) = 82%nat
  /\ (pos (vcr_file (snd (events sample_replay)))
      <= length (buf (vcr_file sample_replay)))%nat.
Proof.
  destruct (events_forward_only sample_replay) as (_ & _ & Hbound & _).
  split; [vm_compute; reflexivity|]. apply Hbound. vm_compute. lia.
Defined.

(** X15: reading an event always leaves the stream 5 + size bytes further
    (or at its end), whatever the class of the event and whether or not its
    decoder raised: decoders work on a stream of their own. *)
Theorem read_event_framing (slice_time : float) (f : BytesIO) :
  let h := from_bytes_unsigned (take 4 (remaining f)) in
  let n := (5 + Z.to_nat (unpack_event_size h))%nat in
  snd (read_event slice_time f) = advance n f
  /\ remaining (snd (read_event slice_time f)) = drop n (remaining f)
  /\ (5 <= n <= 516)%nat.
Proof.
  intros h n. rewrite read_event_eq. fold h n. cbn [snd].
  split; [reflexivity|]. split; [apply remaining_advance|].
  pose proof (unpack_event_size_range h). unfold n. lia.
Qed.

Lemma read_slice_header_Ok (f : BytesIO) :
  exists slice_time c,
    read_slice_header f = (Ok (slice_time, c), advance 6 f)
    /\ nonneg_finite slice_time /\ 0 <= c < 65536.
Proof.
  unfold read_slice_header.
  destruct (read_float_word_exact f) as [Hrun Hval].
  rewrite bind_read_float by lia. rewrite int_from_bytes_unsigned.
  change (Z.to_nat 4) with 4%nat.
  assert (Hc : 0 <= from_bytes_unsigned (take 2 (drop 4 (remaining f))) < 65536).
  { pose proof (from_bytes_unsigned_lt (take 2 (drop 4 (remaining f))) 2
                  (length_take_le _ _)) as H.
    change (256 ^ Z.of_nat 2) with 65536 in H. exact H. }
  destruct Hval as [[Hz _]|(m & e & Hm & _)].
  - rewrite Hz. run_reads. unfold ret. rewrite int_from_bytes_unsigned.
    eexists _, _. split; [reflexivity|]. split; [left; reflexivity|exact Hc].
  - rewrite Hm. run_reads. unfold ret. rewrite int_from_bytes_unsigned.
    eexists _, _. split; [reflexivity|]. split; [right; eauto|exact Hc].
Qed.

Lemma read_event_Raise (slice_time : float) (f : BytesIO) (e : exception) :
  fst (read_event slice_time f) = Raise e -> e = struct_error.
Proof.
  rewrite read_event_eq. cbn [fst]. intros He.
  apply construct_Raise in He. tauto.
Qed.

Lemma slice_events_run (n : nat) (slice_time : float) (self : Replay) :
  let evs := fst (fst (slice_events n slice_time self)) in
  let stop := snd (fst (slice_events n slice_time self)) in
  (stop = None -> length evs = n)
  /\ (forall e, stop = Some e -> (length evs < n)%nat /\ e = struct_error)
  /\ Forall (fun ev => time (base ev) = slice_time) evs.
Proof.
  revert self. induction n as [|n IH]; intros self.
  - cbn. split; [reflexivity|]. split; [discriminate|constructor].
  - cbv zeta. rewrite slice_events_S. unfold on_vcr_file.
    pose proof (read_event_Raise slice_time (vcr_file self)) as Herr.
    pose proof (read_event_Ok slice_time (vcr_file self)) as Hok.
    destruct (read_event slice_time (vcr_file self)) as [[ev|e] f1]; cbn [fst] in *.
    + match goal with |- context [slice_events n slice_time ?s] =>
        specialize (IH s); destruct (slice_events n slice_time s) as [[evs stop] s2]
      end.
      cbn [fst snd] in *. destruct IH as (Hnone & Hsome & Htime).
      split; [intros Hs; simpl; f_equal; auto|].
      split; [intros e He; destruct (Hsome e He); simpl; split; [lia|assumption]|].
      constructor; [|exact Htime].
      destruct (Hok ev eq_refl) as (_ & _ & _ & Ht & _). exact Ht.
    + cbn [fst snd]. split; [discriminate|].
      split; [|constructor]. intros e' [= <-]. simpl. split; [lia|].
      apply Herr. reflexivity.
Qed.

(** X16: a slice that is read to its end yields exactly its declared number
    of events; one that stops early stopped on [struct.error]; and every
    event of a slice carries the time of the slice. *)
Theorem slice_events_count (n : nat) (slice_time : float) (self : Replay) :
  let evs := fst (fst (slice_events n slice_time self)) in
  let stop := snd (fst (slice_events n slice_time self)) in
  (stop = None -> length evs = n)
  /\ (forall e, stop = Some e -> (length evs < n)%nat /\ e = struct_error)
  /\ Forall (fun ev => time (base ev) = slice_time) evs.
Proof. apply slice_events_run. Qed.

Lemma slice_events_count_witness :
  length (fst (fst (slice_events 2 zero (mkReplay (mkBytesIO sample_slices 6) sample_info []))))
  = 2%nat.
Proof.
  apply (proj1 (slice_events_count 2 zero (mkReplay (mkBytesIO sample_slices 6) sample_info []))).
  vm_compute. reflexivity.
Defined.

Lemma advance_at_end (n : nat) (f : BytesIO) : remaining f = [] -> advance n f = f.
Proof.
  intros Hrem. unfold advance. rewrite Hrem, take_nil. destruct f as [b p].
  cbn [buf pos length]. f_equal. lia.
Qed.

Lemma read_slice_header_at_end (f : BytesIO) :
  remaining f = [] -> read_slice_header f = (Ok (zero, 0), f).
Proof.
  intros Hrem. unfold read_slice_header.
  rewrite bind_read_float by lia. rewrite Hrem, take_nil.
  change (float_of_int (int_from_bytes [] false)) with (@Ok float zero).
  cbv beta iota. rewrite bind_read_integer by lia.
  rewrite !advance_at_end by (rewrite ?advance_at_end; assumption).
  rewrite Hrem, take_nil. reflexivity.
Qed.

Lemma slices_at_end (n : nat) (self : Replay) :
  remaining (vcr_file self) = [] -> slices n self = (([], None), self).
Proof.
  intros Hrem. induction n as [|n IH]; [reflexivity|].
  rewrite slices_S. unfold on_vcr_file.
  rewrite read_slice_header_at_end by exact Hrem.
  change (Z.to_nat 0) with 0%nat. cbn [slice_events].
  destruct self as [f i ds]. cbn [vcr_file info drivers] in *.
  rewrite IH. reflexivity.
Qed.

(** X17: with no slice to read, or with the stream at its end, iterating
    yields nothing, raises nothing and leaves the replay as it is, whatever
    the slice count says. *)
Theorem events_nothing_to_read (self : Replay) :
  slice_count (info self) <= 0 \/ remaining (vcr_file self) = [] ->
  events self = (([], None), self).
Proof.
  unfold events. intros [Hcount|Hrem].
  - replace (Z.to_nat (slice_count (info self))) with 0%nat by lia. reflexivity.
  - apply slices_at_end. exact Hrem.
Qed.

Lemma events_nothing_to_read_witness :
  events (mkReplay (mkBytesIO sample_slices 82) sample_info [])
  = (([], None), mkReplay (mkBytesIO sample_slices 82) sample_info []).
Proof. apply events_nothing_to_read. right. reflexivity. Defined.

Lemma slices_run (n : nat) (self : Replay) :
  let r := fst (slices n self) in
  Z.of_nat (length (fst r)) <= Z.of_nat n * 65535
  /\ (forall e, snd r = Some e -> e = struct_error)
  /\ Forall (fun ev => nonneg_finite (time (base ev))) (fst r).
Proof.
  revert self. induction n as [|n IH]; intros self.
  - cbn. split; [lia|]. split; [discriminate|constructor].
  - cbv zeta. rewrite slices_S. unfold on_vcr_file.
    destruct (read_slice_header_Ok (vcr_file self)) as (t & c & -> & Ht & Hc).
    match goal with |- context [slice_events (Z.to_nat c) t ?s] =>
      pose proof (slice_events_run (Z.to_nat c) t s) as Hin;
      destruct (slice_events (Z.to_nat c) t s) as [[evs stop] s2]
    end.
    cbn [fst snd] in Hin. destruct Hin as (Hnone & Hsome & Htime).
    assert (Hnonneg : Forall (fun ev => nonneg_finite (time (base ev))) evs).
    { eapply Forall_impl; [exact Htime|]. intros ev ->. exact Ht. }
    destruct stop as [e|].
    + cbn [fst snd]. destruct (Hsome e eq_refl) as [Hlen ->].
      split; [lia|]. split; [intros e' [= <-]; reflexivity|exact Hnonneg].
    + specialize (IH s2). destruct (slices n s2) as [[evs' stop'] s3].
      cbn [fst snd] in *. destruct IH as (Hlen' & Herr' & Htime').
      rewrite length_app, (Hnone eq_refl).
      split; [lia|]. split; [exact Herr'|].
      apply Forall_app; split; assumption.
Qed.

(** X18: iterating the events yields at most 65535 events per slice, and
    can only stop early on [struct.error]. *)
Theorem events_bounded (self : Replay) :
  Z.of_nat (length (fst (fst (events self))))
  <= Z.max 0 (slice_count (info self)) * 65535
  /\ (forall e, snd (fst (events self)) = Some e -> e = struct_error).
Proof.
  destruct (slices_run (Z.to_nat (slice_count (info self))) self) as (Hlen & Herr & _).
  split; [|exact Herr]. unfold events. cbv zeta in Hlen.
  replace (Z.of_nat (Z.to_nat (slice_count (info self))))
    with (Z.max 0 (slice_count (info self))) in Hlen by lia.
  exact Hlen.
Qed.

Lemma events_bounded_witness :
  snd (fst (events (mkReplay (BytesIO_new (take 20 sample_slices)) sample_info [])))
  = Some struct_error.
Proof.
  destruct (snd (fst (events (mkReplay (BytesIO_new (take 20 sample_slices))
                                sample_info []))))
    as [e|] eqn:Hstop; [|vm_compute in Hstop; discriminate Hstop].
  f_equal. exact (proj2 (events_bounded _) e Hstop).
Defined.

(** X19: every event of the stream carries the time of a slice, a
    non-negative finite number. *)
Theorem events_times (self : Replay) :
  Forall (fun ev => nonneg_finite (time (base ev))) (fst (fst (events self))).
Proof.
  destruct (slices_run (Z.to_nat (slice_count (info self))) self) as (_ & _ & Ht).
  exact Ht.
Qed.

Lemma forward_post_init (cls : EventClass) (self : ReplayEvent) (ev : Event) :
  construct cls self = Ok ev ->
  buf (data (base ev)) = buf (data self)
  /\ ((pos (data self) <= length (buf (data self)))%nat ->
      (pos (data (base ev)) <= length (buf (data self)))%nat).
Proof.
  assert (Hon : forall A (m : M A) (k : ReplayEvent -> A -> Event),
            forward m -> (forall s a, base (k s a) = s) ->
            on_data self m k = Ok ev ->
            buf (data (base ev)) = buf (data self)
            /\ ((pos (data self) <= length (buf (data self)))%nat ->
                (pos (data (base ev)) <= length (buf (data self)))%nat)).
  { intros A m k Hm Hk. unfold on_data. specialize (Hm (data self)).
    destruct (m (data self)) as [[a|e] d]; [|discriminate].
    intros [= <-]. rewrite Hk. cbn [data set_data snd] in *. tauto. }
  destruct cls; cbn [construct].
  - intros [= <-]. cbn [base]. auto.
  - apply Hon; [apply forward_read_integer|reflexivity].
  - apply Hon; [apply forward_read_float|reflexivity].
  - apply Hon; [|intros s [[[? ?] ?] ?]; reflexivity].
    unfold CheckpointEvent_post_init. reader;
      first [apply forward_read_float | apply forward_read_integer].
  - apply Hon; [apply forward_read_integer|reflexivity].
  - apply Hon; [|reflexivity]. unfold OvertakeEvent_post_init, read_bytes. reader.
  - apply Hon; [|reflexivity]. unfold TelemetryEvent_post_init. reader;
      first [apply forward_read_float2 | apply forward_read_integer].
Qed.

Lemma unpack_event_class_range (h : Z) :
  0 <= h < 2 ^ 32 -> 0 <= unpack_event_class h <= 7.
Proof.
  intros Hh. unfold unpack_event_class. rewrite Z.shiftr_div_pow2 by lia.
  split; [apply Z.div_pos; lia|].
  assert (h / 2 ^ 29 < 8); [|lia].
  apply Z.div_lt_upper_bound; [lia|]. change (2 ^ 29 * 8) with (2 ^ 32). lia.
Qed.

Lemma unpack_event_type_range (h : Z) : 0 <= unpack_event_type h <= 63.
Proof.
  unfold unpack_event_type. pose proof (land_ones_range (h >> 17) 6 ltac:(lia)) as H.
  change (Z.ones 6) with 63 in H. change (2 ^ 6) with 64 in H. lia.
Qed.

Lemma read_event_well_framed (slice_time : float) (f : BytesIO) (ev : Event) :
  fst (read_event slice_time f) = Ok ev -> well_framed ev.
Proof.
  intros Hev. pose proof (read_event_Ok slice_time f ev Hev)
    as (_ & Hc & Ht & _ & _ & Hs).
  rewrite read_event_eq in Hev. cbn [fst] in Hev.
  apply forward_post_init in Hev as [Hbuf Hpos]. cbn [data BytesIO_new buf pos] in *.
  unfold well_framed. rewrite Hc, Ht, Hs, Hbuf.
  pose proof (from_bytes_unsigned_lt (take 4 (remaining f)) 4 (length_take_le _ _)) as Hh.
  change (256 ^ Z.of_nat 4) with (2 ^ 32) in Hh.
  split; [apply unpack_event_class_range; exact Hh|].
  split; [apply unpack_event_type_range|].
  split; [apply unpack_event_size_range|].
  pose proof (unpack_event_size_range (from_bytes_unsigned (take 4 (remaining f)))).
  split; [rewrite length_take; lia|apply Hpos; lia].
Qed.

(** X20: every event of the stream has its class in 0..7, its type in
    0..63 and its size in 0..511, holds at most [size] content bytes, and
    its decoder read no further than the end of that content. *)
Theorem events_well_framed (self : Replay) :
  Forall well_framed (fst (fst (events self))).
Proof. apply events_Forall. exact read_event_well_framed. Qed.

(** ** replay.py: the dispatch table, the header and the driver list *)

(** X21: every entry of the dispatch table can be reached from a packed
    header: its class fits 3 bits and its type 6 bits; and no entry maps to
    [UnknownEvent], which only the fallback gives. *)
Theorem dispatch_entries_reachable (c t : Z) (cls : EventClass) :
  _EVENT_TYPES !! (c, t) = Some cls ->
  cls <> cls_UnknownEvent
  /\ exists h, 0 <= h < 2 ^ 32
               /\ unpack_event_class h = c /\ unpack_event_type h = t
               /\ _EVENT_TYPES_get (unpack_event_class h, unpack_event_type h) = cls.
Proof.
  intros Hl. pose proof Hl as Hl'. rewrite _EVENT_TYPES_lookup in Hl'.
  assert (Hrange : 0 <= c <= 7 /\ 0 <= t <= 63 /\ cls <> cls_UnknownEvent).
  { repeat case_decide; try discriminate; injection Hl' as <-;
      repeat match goal with H : (_, _) = (_, _) |- _ => injection H as -> -> end;
      repeat split; try lia; discriminate. }
  destruct Hrange as (Hc & Ht & Hcls). split; [exact Hcls|].
  exists (c * 2 ^ 29 + t * 2 ^ 17).
  assert (Hcu : unpack_event_class (c * 2 ^ 29 + t * 2 ^ 17) = c).
  { unfold unpack_event_class. rewrite Z.shiftr_div_pow2 by lia.
    change (2 ^ 29) with 536870912. change (2 ^ 17) with 131072.
    Z.div_mod_to_equations. lia. }
  assert (Htu : unpack_event_type (c * 2 ^ 29 + t * 2 ^ 17) = t).
  { unfold unpack_event_type. change 63 with (Z.ones 6).
    rewrite Z.land_ones, Z.shiftr_div_pow2 by lia.
    change (2 ^ 29) with 536870912. change (2 ^ 17) with 131072.
    change (2 ^ 6) with 64. Z.div_mod_to_equations. lia. }
  split; [change (2 ^ 32) with 4294967296; change (2 ^ 29) with 536870912;
          change (2 ^ 17) with 131072; lia|].
  split; [exact Hcu|]. split; [exact Htu|].
  rewrite Hcu, Htu. unfold _EVENT_TYPES_get. rewrite Hl. reflexivity.
Qed.

Lemma dispatch_entries_reachable_witness :
  exists h, unpack_event_class h = 3 /\ unpack_event_type h = 48
            /\ _EVENT_TYPES_get (unpack_event_class h, unpack_event_type h)
               = cls_OvertakeEvent.
Proof.
  destruct (dispatch_entries_reachable 3 48 cls_OvertakeEvent)
    as (_ & h & _ & Hc & Ht & Hget); [vm_compute; reflexivity|].
  exists h. auto.
Defined.





















(** ** replay.py: where the header starts *)

Lemma bytes_eqb_eq (a b : bytes) : bytes_eqb a b = true <-> a = b.
Proof.
  revert b. induction a as [|x a IH]; intros [|y b]; cbn [bytes_eqb];
    try (split; [discriminate|discriminate]); [tauto|].
  rewrite andb_true_iff, IH. split.
  - intros [Hx ->]. apply Byte.byte_dec_bl in Hx as ->. reflexivity.
  - intros [= -> ->]. split; [apply Byte.byte_dec_lb|]; reflexivity.
Qed.

Lemma bind_read_all {B} (k : bytes -> M B) (f : BytesIO) :
  bind (read (-1)) k f
  = k (remaining f) (mkBytesIO (buf f) (pos f + length (remaining f))).
Proof. reflexivity. Qed.

Lemma bind_seek {B} (offset : Z) (k : unit -> M B) (f : BytesIO) :
  bind (seek offset) k f = k tt (mkBytesIO (buf f) (Z.to_nat offset)).
Proof. reflexivity. Qed.

Lemma positionless_read_session_info : positionless _read_session_info.
Proof.
  unfold _read_session_info.
  apply positionless_bind; [apply positionless_read_integer|]. intros session_info.
  apply positionless_bind; [|intros; apply positionless_ret].
  repeat match goal with
    | |- context [if ?c then _ else _] => destruct c
    end; first [apply positionless_ret | apply positionless_raise].
Qed.

Ltac positionless_solve :=
  repeat first
    [ apply positionless_read_string
    | apply positionless_read_integer
    | apply positionless_read_session_info
    | apply positionless_read
    | apply positionless_ret
    | apply positionless_bind
    | progress intros
    | match goal with |- context [let '(_, _) := ?x in _] => destruct x end ].

Lemma _read_replay_info_seeks_absolute (raw : bytes) (p : nat) :
  let k := bytes_find (drop p raw) x0a in
  fst (_read_replay_info (mkBytesIO raw p))
  = fst (_read_replay_info (BytesIO_new (x0a :: drop (Z.to_nat (k + 1)) raw))).
Proof.
  intros k. unfold _read_replay_info, read_to_end.
  rewrite !bind_read_all. cbv zeta. rewrite !bind_seek.
  change (remaining (mkBytesIO raw p)) with (drop p raw). fold k.
  change (remaining (BytesIO_new ?l)) with l.
  change (bytes_find (x0a :: ?l) x0a) with 0.
  match goal with
  | |- fst (?m ?f1) = fst (?m ?g1) =>
      assert (Hm : positionless m) by positionless_solve;
      apply (Hm f1 g1)
  end.
  reflexivity.
Qed.

(** X24: the header is decoded from the absolute offset [k + 1] of the
    stream, where [k] is the index of the first newline counted from the
    current position ([-1] when there is none): the position the search
    started from is not added. *)
Theorem header_start (raw : bytes) (p : nat) :
  let k := bytes_find (drop p raw) x0a in
  fst (_read_replay_info (mkBytesIO raw p))
  = fst (_read_replay_info (BytesIO_new (x0a :: drop (Z.to_nat (k + 1)) raw))).
Proof. apply _read_replay_info_seeks_absolute. Qed.

Lemma header_start_witness :
  fst (_read_replay_info (mkBytesIO sample_file 2))
  = fst (_read_replay_info (BytesIO_new (x0a :: drop 2 sample_file))).
Proof. exact (header_start sample_file 2). Defined.

(** X25: a file that does not start with the gzip magic is handed on with
    its first two bytes already consumed; so, for a newline found [k] bytes
    after them, the header is decoded from offset [k + 1] of the file, two
    bytes before the byte that follows the newline. *)
Theorem plain_file_header_start (gzip_open : bytes -> BytesIO) (raw : bytes) :
  take 2 raw <> [x1f; x8b] ->
  let vcr_file := _open_vcr_file gzip_open raw in
  let k := bytes_find (drop 2 raw) x0a in
  vcr_file = mkBytesIO raw (length (take 2 raw))
  /\ ((2 <= length raw)%nat ->
      fst (_read_replay_info vcr_file)
      = fst (_read_replay_info (BytesIO_new (x0a :: drop (Z.to_nat (k + 1)) raw)))).
Proof.
  intros Hplain vcr_file k.
  assert (Hopen : vcr_file = mkBytesIO raw (length (take 2 raw))).
  { unfold vcr_file, _open_vcr_file. cbv zeta. rewrite read_nonneg by lia.
    change (remaining (BytesIO_new raw)) with raw. change (Z.to_nat 2) with 2%nat.
    destruct (bytes_eqb (take 2 raw) [x1f; x8b]) eqn:Heq.
    - apply bytes_eqb_eq in Heq. contradiction.
    - reflexivity. }
  split; [exact Hopen|]. intros Hlen. rewrite Hopen.
  replace (length (take 2 raw)) with 2%nat by (rewrite length_take; lia).
  apply _read_replay_info_seeks_absolute.
Qed.

Lemma plain_file_header_start_witness :
  exists i,
    fst (_read_replay_info (_open_vcr_file BytesIO_new sample_file)) = Ok i
    /\ version i = [x72; x20; x31; x2e].
Proof.
  destruct (plain_file_header_start BytesIO_new sample_file) as [_ Hstart];
    [vm_compute; discriminate|].
  rewrite Hstart by (vm_compute; lia).
  eexists. split; [vm_compute; reflexivity|reflexivity].
Defined.

Lemma bytes_find_first (pre rest : bytes) (x : byte) :
  ~ In x pre -> bytes_find (pre ++ x :: rest) x = Z.of_nat (length pre).
Proof.
  intros Hnin. induction pre as [|b pre IH].
  - cbn [app bytes_find]. rewrite (Byte.byte_dec_lb (x:=x) eq_refl). reflexivity.
  - simpl app. cbn [bytes_find].
    destruct (Byte.eqb b x) eqn:Hb.
    + apply Byte.byte_dec_bl in Hb. exfalso. apply Hnin. left. exact Hb.
    + rewrite IH by (intros Hin; apply Hnin; right; exact Hin).
      destruct (Z.eqb_spec (Z.of_nat (length pre)) (-1)); [lia|].
      simpl length. lia.
Qed.

(** X26: read from the start of a stream, the header decoder skips the
    first line whatever it holds: the result is that of the stream with an
    empty first line; and a decoded version is the bytes 4..7 after the
    newline. *)
Theorem first_line_skipped (line body : bytes) :
  ~ In x0a line ->
  fst (_read_replay_info (BytesIO_new (line ++ x0a :: body)))
  = fst (_read_replay_info (BytesIO_new (x0a :: body)))
  /\ (forall i, fst (_read_replay_info (BytesIO_new (x0a :: body))) = Ok i ->
        version i = take 4 (drop 4 body)).
Proof.
  intros Hline. split.
  - unfold BytesIO_new at 1. rewrite _read_replay_info_seeks_absolute. rewrite drop_0.
    rewrite bytes_find_first by exact Hline.
    replace (Z.to_nat (Z.of_nat (length line) + 1)) with (S (length line)) by lia.
    replace (drop (S (length line)) (line ++ x0a :: body)) with body; [reflexivity|].
    change (S (length line)) with (1 + length line)%nat.
    rewrite Nat.add_comm, <- drop_drop, drop_app_length. reflexivity.
  - intros i Hi.
    destruct (_read_replay_info (BytesIO_new (x0a :: body))) as [[i'|e] f'] eqn:Hrun;
      cbn [fst] in Hi; [|discriminate Hi].
    injection Hi as ->. unfold _read_replay_info, read_to_end in Hrun.
    rewrite bind_read_all in Hrun. cbv zeta in Hrun. rewrite bind_seek in Hrun.
    change (remaining (BytesIO_new (x0a :: body))) with (x0a :: body) in Hrun.
    change (bytes_find (x0a :: body) x0a) with 0 in Hrun.
    change (Z.to_nat (0 + 1)) with 1%nat in Hrun.
    rewrite bind_read in Hrun by lia. rewrite bind_read in Hrun by lia.
    rewrite remaining_advance in Hrun.
    change (remaining (mkBytesIO (buf (BytesIO_new (x0a :: body))) 1))
      with body in Hrun.
    change (Z.to_nat 4) with 4%nat in Hrun.
    repeat (apply bind_Ok_inv in Hrun as (? & ? & _ & Hrun)).
    match goal with x : (SessionType * bool)%type |- _ => destruct x end.
    repeat (apply bind_Ok_inv in Hrun as (? & ? & _ & Hrun)).
    injection Hrun as <- _. reflexivity.
Qed.

Lemma first_line_skipped_witness :
  exists i,
    fst (_read_replay_info (BytesIO_new sample_file)) = Ok i
    /\ version i = [x31; x2e; x32; x30]
    /\ session_type i = RACE.
Proof.
  destruct (first_line_skipped [x56; x43; x52] (drop 4 sample_file)) as [Hskip Hver].
  { vm_compute. intros [H|[H|[H|[]]]]; discriminate H. }
  change ([x56; x43; x52] ++ x0a :: drop 4 sample_file) with sample_file in Hskip.
  rewrite Hskip.
  destruct (fst (_read_replay_info (BytesIO_new (x0a :: drop 4 sample_file))))
    as [i|e] eqn:Hi; [|vm_compute in Hi; discriminate Hi].
  exists i. split; [reflexivity|]. split; [rewrite (Hver i eq_refl); reflexivity|].
  vm_compute in Hi. injection Hi as <-. reflexivity.
Defined.

(** X27: the TC/brakes byte is split without loss: 64 times the TC level
    plus the brakes gives back the byte at offset 38 of the content. *)
Theorem tc_brakes_split (self : ReplayEvent) (f : BytesIO) (t : Telemetry) :
  fst (TelemetryEvent_post_init self f) = Ok t ->
  64 * tc_level t + brakes t = from_bytes_unsigned (take 1 (drop 38 (remaining f))).
Proof.
  intros Ht. pose proof (TelemetryEvent_post_init_inv self f t Ht) as Hlen.
  rewrite TelemetryEvent_post_init_Ok in Ht by exact Hlen.
  injection Ht as <-. cbn [tc_level brakes].
  change 63 with (Z.ones 6). rewrite Z.land_ones, Z.shiftr_div_pow2 by lia.
  change (2 ^ 6) with 64.
  symmetry. apply Z.div_mod. lia.
Qed.

Lemma tc_brakes_split_witness :
  exists t,
    fst (TelemetryEvent_post_init sample_event (data sample_event)) = Ok t
    /\ 64 * tc_level t + brakes t = 133.
Proof.
  destruct (fst (TelemetryEvent_post_init sample_event (data sample_event)))
    as [t|e] eqn:Ht; [|vm_compute in Ht; discriminate Ht].
  exists t. split; [reflexivity|].
  rewrite (tc_brakes_split _ _ _ Ht). reflexivity.
Defined.
